(** * horovod/torch/mpi_ops.py: collective dispatch and gradient rules

    A shallow embedding of the asynchronous collective-operation layer of
    [horovod.torch.mpi_ops]: the divisor/op rewriting of allreduce, the
    type and layout validation of [_check_function], the handle table
    [_handle_map], [synchronize], and the backward rules of allgather and
    broadcast.

    Python code runs in a state-and-exception monad over the process state
    (handle table, tensor storage, native engine, emitted warnings).  The
    native module [mpi_lib] and the topology facts of [HorovodBasics] are
    not part of the file under study; they are parameters of the
    embedding. *)

From Stdlib Require Import ZArith QArith String Ascii List Lia.
From stdpp Require Import base option list gmap strings.

Local Open Scope string_scope.
Local Open Scope list_scope.
Local Open Scope Z_scope.

(** ** Values *)

(** Reduction ops exported by [_basics]: [Average], [Sum], [Adasum]. *)
Inductive ReduceOp := Average | Sum | Adasum.

#[global] Instance ReduceOp_eq_dec : EqDecision ReduceOp.
Proof. solve_decision. Defined.

(** An element of a tensor.  A finite value is an exact number: the
    rounding and the overflow of the machine formats are not modelled.
    The non-finite values of the floating-point formats are elements too,
    since gradients can hold them, with the arithmetic IEEE 754 gives
    them. *)
Inductive Elem :=
| Num (z : Z)
| PosInf
| NegInf
| NaN.

#[global] Instance Elem_eq_dec : EqDecision Elem.
Proof. solve_decision. Defined.

Definition is_finite (a : Elem) : bool :=
  match a with
  | Num _ => true
  | _ => false
  end.

(** The sign of an element, -1, 0 or 1; [NaN] has none. *)
Definition elem_sgn (a : Elem) : option Z :=
  match a with
  | Num z => Some (Z.sgn z)
  | PosInf => Some 1
  | NegInf => Some (-1)
  | NaN => None
  end.

(** [a + b]: an infinity absorbs finite values; opposite infinities, and
    anything with [NaN], give [NaN]. *)
Definition elem_add (a b : Elem) : Elem :=
  match a, b with
  | Num x, Num y => Num (x + y)
  | NaN, _ => NaN
  | _, NaN => NaN
  | PosInf, NegInf => NaN
  | NegInf, PosInf => NaN
  | PosInf, _ => PosInf
  | _, PosInf => PosInf
  | NegInf, _ => NegInf
  | _, NegInf => NegInf
  end.

(** [a * b]: an infinity times zero, and anything times [NaN], give
    [NaN]; otherwise an infinity with the product of the signs. *)
Definition elem_mul (a b : Elem) : Elem :=
  match a, b with
  | Num x, Num y => Num (x * y)
  | _, _ =>
      match elem_sgn a, elem_sgn b with
      | Some sa, Some sb =>
          if sa * sb =? 0 then NaN
          else if 0 <? sa * sb then PosInf
          else NegInf
      | _, _ => NaN
      end
  end.

(** Python exceptions raised in, or passing through, this module. *)
Inductive Exception :=
| ValueError (msg : string)
| NotImplementedError (msg : string)
| RuntimeError (msg : string)
| HorovodInternalError (e : string)
| ZeroDivisionError
| IndexError
| AttributeError
| TypeError.

(** A tensor object: its identity [tid] (the storage cell its elements
    live in) and the attributes the module reads: [tensor.type()],
    [tensor.device.type] and [tensor.is_contiguous()]. *)
Record Tensor := mkTensor {
  tid : N;
  type : string;
  device_type : string;
  is_contiguous : bool
}.

(** Python values that flow through the handle table: [None], a tensor,
    or a tuple of tensors (grouped allreduce). *)
Inductive Value :=
| VNone
| VTensor (t : Tensor)
| VTuple (ts : list Tensor).

(** Schema of [_handle_map]: handle -> (input, output), and
    (tensor, splits, output) for alltoall. *)
Inductive Entry :=
| Pair (input output : Value)
| Triple (tensor splits output : Value).

(** [entry[-1]] *)
Definition entry_last (e : Entry) : Value :=
  match e with
  | Pair _ output => output
  | Triple _ _ output => output
  end.

(** The [splits] argument of alltoall: [None], a tensor, or a plain
    sequence of integers. *)
Inductive Splits :=
| SplitsNone
| SplitsTensor (t : Tensor)
| SplitsSeq (l : list Z).

(** One invocation of an asynchronous entry point of [mpi_lib], with the
    arguments in the order the module passes them. *)
Inductive Call :=
| AllreduceCall (function : string) (tensor output : Tensor) (divisor : Z)
    (name : string) (op : ReduceOp) (prescale_factor postscale_factor : Q)
| GroupedAllreduceCall (function : string) (tensors outputs : list Tensor)
    (divisor : Z) (name : string) (op : ReduceOp)
    (prescale_factor postscale_factor : Q)
| AllgatherCall (function : string) (tensor output : Tensor) (name : string)
| BroadcastCall (function : string) (tensor output : Tensor) (root_rank : Z)
    (name : string)
| AlltoallCall (function : string) (tensor splits output : Tensor)
    (name : string).

Definition call_function (c : Call) : string :=
  match c with
  | AllreduceCall f _ _ _ _ _ _ _ => f
  | GroupedAllreduceCall f _ _ _ _ _ _ _ => f
  | AllgatherCall f _ _ _ => f
  | BroadcastCall f _ _ _ _ => f
  | AlltoallCall f _ _ _ _ => f
  end.

(** The reduction op and the divisor a reduce call hands to the backend. *)
Definition call_op (c : Call) : option ReduceOp :=
  match c with
  | AllreduceCall _ _ _ _ _ op _ _ => Some op
  | GroupedAllreduceCall _ _ _ _ _ op _ _ => Some op
  | _ => None
  end.

Definition call_divisor (c : Call) : option Z :=
  match c with
  | AllreduceCall _ _ _ d _ _ _ _ => Some d
  | GroupedAllreduceCall _ _ _ d _ _ _ _ => Some d
  | _ => None
  end.

(** ** The environment: topology facts and the native module *)

(** Process-lifetime facts read through [_basics] and
    [horovod.common.util.gpu_available]. *)
Record HorovodBasics := mkBasics {
  size : Z;
  local_size : Z;
  rank : Z;
  rocm_built : bool;
  nccl_built : bool;
  is_homogeneous : bool;
  gpu_available : bool
}.

(** The native module [mpi_lib], over the state [B] of the native engine.
    [hasattr] tells which entry points the build has; [invoke] is a call
    of an asynchronous entry point, giving a handle or the message of a
    [RuntimeError]; [horovod_torch_wait_and_clear] blocks until the
    operation of a handle is complete, by which time the engine has
    written the output tensors, and may fail with a [RuntimeError]. *)
Record MpiLib (B : Type) := mkMpiLib {
  hasattr : string -> bool;
  invoke : Call -> gmap N (list (list Elem)) -> B -> (string + Z) * B;
  horovod_torch_wait_and_clear :
    Z -> gmap N (list (list Elem)) -> B ->
    option string * gmap N (list (list Elem)) * B
}.

Arguments hasattr {B} _ _.
Arguments invoke {B} _ _ _ _.
Arguments horovod_torch_wait_and_clear {B} _ _ _ _.

(** ** Process state and the execution monad *)

(** The state of one rank: the handle table, the storage of the tensors
    (axis-0 slices, each flattened to a list of integers), the next fresh
    tensor identity, the engine, and two logs kept for the statements:
    the warnings emitted and the backend calls made. *)
Record World (B : Type) := mkWorld {
  _handle_map : gmap Z Entry;
  heap : gmap N (list (list Elem));
  next_tid : N;
  engine : B;
  warnings : list string;
  submitted : list Call
}.

Arguments mkWorld {B} _ _ _ _ _ _.
Arguments _handle_map {B} _.
Arguments heap {B} _.
Arguments next_tid {B} _.
Arguments engine {B} _.
Arguments warnings {B} _.
Arguments submitted {B} _.

Inductive Result (A : Type) :=
| Return (a : A)
| Raise (e : Exception).

Arguments Return {A} _.
Arguments Raise {A} _.

Definition M (B A : Type) : Type := World B -> Result A * World B.

Definition ret {B A} (a : A) : M B A := fun w => (Return a, w).

Definition raise {B A} (e : Exception) : M B A := fun w => (Raise e, w).

Definition bind {B A C} (m : M B A) (k : A -> M B C) : M B C :=
  fun w =>
    match m w with
    | (Return a, w') => k a w'
    | (Raise e, w') => (Raise e, w')
    end.

Declare Scope py_scope.
Delimit Scope py_scope with py.

Notation "'let*' x ':=' c1 'in' c2" := (bind c1 (fun x => c2))
  (at level 10, x name, c1 at level 100, c2 at level 200) : py_scope.
Notation "'let*' ' p ':=' c1 'in' c2" := (bind c1 (fun p => c2))
  (at level 10, p pattern, c1 at level 100, c2 at level 200) : py_scope.
Notation "c1 ;; c2" := (bind c1 (fun _ => c2))
  (at level 100, c2 at level 200, right associativity) : py_scope.

Local Open Scope py_scope.

(** [try: m except RuntimeError as e: raise HorovodInternalError(e)] *)
Definition except_RuntimeError {B A} (m : M B A) : M B A :=
  fun w =>
    match m w with
    | (Raise (RuntimeError e), w') => (Raise (HorovodInternalError e), w')
    | r => r
    end.

(** [warnings.warn(msg)] *)
Definition warn {B} (msg : string) : M B unit :=
  fun w =>
    (Return tt,
     mkWorld (_handle_map w) (heap w) (next_tid w) (engine w)
       (warnings w ++ [msg]) (submitted w)).

(** [_handle_map[handle] = entry] *)
Definition handle_map_setitem {B} (handle : Z) (e : Entry) : M B unit :=
  fun w =>
    (Return tt,
     mkWorld (<[handle := e]> (_handle_map w)) (heap w) (next_tid w)
       (engine w) (warnings w) (submitted w)).

(** [_handle_map.pop(handle)]; the caller has tested membership, a missing
    key would be a [KeyError], rendered here as [IndexError]. *)
Definition handle_map_pop {B} (handle : Z) : M B Entry :=
  fun w =>
    match _handle_map w !! handle with
    | Some e =>
        (Return e,
         mkWorld (delete handle (_handle_map w)) (heap w) (next_tid w)
           (engine w) (warnings w) (submitted w))
    | None => (Raise IndexError, w)
    end.

(** [handle in _handle_map] *)
Definition handle_map_contains {B} (handle : Z) : M B bool :=
  fun w => (Return (bool_decide (is_Some (_handle_map w !! handle))), w).

(** Elements of a tensor; a tensor without a storage cell is empty. *)
Definition data_of {B} (w : World B) (t : Tensor) : list (list Elem) :=
  default [] (heap w !! tid t).

(** A new tensor object with the given attributes and elements. *)
Definition alloc {B} (ty dev : string) (contiguous : bool)
    (d : list (list Elem)) : M B Tensor :=
  fun w =>
    let t := mkTensor (next_tid w) ty dev contiguous in
    (Return t,
     mkWorld (_handle_map w) (<[next_tid w := d]> (heap w))
       (N.succ (next_tid w)) (engine w) (warnings w) (submitted w)).

(** [str.replace(old, new)] for one-character [old] and [new]. *)
Fixpoint replace (old new : ascii) (s : string) : string :=
  match s with
  | EmptyString => EmptyString
  | String c s' =>
      String (if Ascii.eqb c old then new else c) (replace old new s')
  end.

(** [name.encode() if name is not None else _NULL] *)
Definition _NULL : string := "".

Definition encode_name (name : option string) : string :=
  match name with
  | Some n => n
  | None => _NULL
  end.

(** Modelled from the spec: [horovod.common.util.num_rank_is_power_2] is
    not among the sources; the spec requires the count "to be a power of
    two". *)
Definition num_rank_is_power_2 (num_rank : Z) : bool :=
  (0 <? num_rank) && (2 ^ Z.log2 num_rank =? num_rank).

(** [int(a / b)]: true division, then truncation toward zero.  The
    quotient of two machine-sized integers is exact enough in binary64 for
    the truncation to be that of the rational quotient. *)
Definition int_truediv {B} (a b : Z) : M B Z :=
  if b =? 0 then raise ZeroDivisionError else ret (Z.quot a b).

(** [tensors[0]] *)
Definition getitem0 {B} (tensors : list Tensor) : M B Tensor :=
  match tensors with
  | t :: _ => ret t
  | [] => raise IndexError
  end.

(** [tensor.new(tensor.shape)]: a fresh tensor of the same type, device
    and shape; its elements are unspecified, the model fills in zeros. *)
Definition tensor_new_like {B} (tensor : Tensor) : M B Tensor :=
  fun w =>
    alloc (type tensor) (device_type tensor) true
      (map (map (fun _ => Num 0)) (data_of w tensor)) w.

(** [tensor.new()]: a fresh empty tensor of the same type and device. *)
Definition tensor_new_empty {B} (tensor : Tensor) : M B Tensor :=
  alloc (type tensor) (device_type tensor) true [].

Definition not_supported_msg (tensor : Tensor) : string :=
  "Tensor type " +:+ type tensor +:+ " is not supported.".

Definition not_contiguous_msg : string :=
  "Tensor is required to be contiguous.".

Definition heterogeneous_msg : string :=
  "Running GPU Adasum on heterogeneous cluster is not supported yet.".

Definition non_power_2_nodes_msg : string :=
  "Running GPU Adasum with non-power of 2 nodes is not supported yet.".

Definition non_power_2_ranks_msg : string :=
  "Running Adasum with non-power of 2 ranks is not supported yet.".

Definition adasum_mpi_warning : string :=
  "Adasum reduction does not currently support GPU reduction using MPI. Tensors are "
  +:+ "copied to CPU memory instead. To use Adasum for GPU reduction, please compile Horovod "
  +:+ "with HOROVOD_GPU_OPERATIONS=NCCL.".

(** ** Tensor operations of the compute engine

    The operations of [torch] that the gradient rules use.  A result that
    is a view in [torch] is a tensor object of its own here: no rule below
    writes through a view. *)

(** [torch.IntTensor(l)] and [torch.tensor(l, dtype=torch.int32,
    device='cpu')]: a one-dimensional CPU tensor of 32-bit integers; a
    value outside the 32-bit range cannot be stored. *)
Definition int32_tensor {B} (l : list Z) : M B Tensor :=
  if forallb (fun x => (- 2 ^ 31 <=? x) && (x <? 2 ^ 31)) l then
    alloc "torch.IntTensor" "cpu" true (map (fun x => [Num x]) l)
  else raise (RuntimeError "value cannot be converted to type int32 without overflow").

(** [tensor.shape[0]] *)
Definition shape0 {B} (tensor : Tensor) : M B Z :=
  fun w => (Return (Z.of_nat (length (data_of w tensor))), w).

(** [v.narrow(0, start, len)]: the slices [start, start + len) of axis 0;
    out of range it raises. *)
Definition narrow0 {B} (v : Value) (start len : Z) : M B Value :=
  match v with
  | VTensor t =>
      fun w =>
        let d := data_of w t in
        if (0 <=? start) && (0 <=? len)
           && (start + len <=? Z.of_nat (length d))
        then
          (let* r := alloc (type t) (device_type t) (is_contiguous t)
                       (take (Z.to_nat len) (drop (Z.to_nat start) d)) in
           ret (VTensor r)) w
        else
          (Raise (RuntimeError "start + length exceeds dimension size"), w)
  | _ => raise AttributeError
  end.

(** [v.view(n)]: the elements as a one-dimensional tensor of length [n];
    it raises when the number of elements is not [n]. *)
Definition view1 {B} (v : Value) (n : Z) : M B Value :=
  match v with
  | VTensor t =>
      fun w =>
        let elems := concat (data_of w t) in
        if Z.of_nat (length elems) =? n then
          (let* r := alloc (type t) (device_type t) (is_contiguous t)
                       (map (fun x => [x]) elems) in
           ret (VTensor r)) w
        else (Raise (RuntimeError "shape is invalid for input size"), w)
  | _ => raise AttributeError
  end.

(** [torch.sum(v).item()], used as an offset: a number that is not
    finite is refused where an integer is required. *)
Definition sum_item {B} (v : Value) : M B Z :=
  match v with
  | VTensor t =>
      fun w =>
        match foldr elem_add (Num 0) (concat (data_of w t)) with
        | Num z => (Return z, w)
        | _ => (Raise TypeError, w)
        end
  | _ => raise TypeError
  end.

(** [v *= c]: in-place multiplication of every element by [c]. *)
Definition imul {B} (v : Value) (c : Z) : M B Value :=
  match v with
  | VTensor t =>
      fun w =>
        (Return v,
         mkWorld (_handle_map w)
           (<[tid t := map (map (fun x => elem_mul x (Num c))) (data_of w t)]>
              (heap w))
           (next_tid w) (engine w) (warnings w) (submitted w))
  | _ => raise TypeError
  end.

(** [torch.ones(n, dtype=torch.int32, device='cpu')]; a negative length
    is refused. *)
Definition ones_int32 {B} (n : Z) : M B Tensor :=
  if n <? 0 then
    raise (RuntimeError "Trying to create tensor with negative dimension")
  else alloc "torch.IntTensor" "cpu" true (replicate (Z.to_nat n) [Num 1]).

(** A 32-bit signed integer holds its value modulo 2^32. *)
Definition wrap32 (x : Z) : Z := (x + 2 ^ 31) mod 2 ^ 32 - 2 ^ 31.

(** [t * c] for a tensor of 32-bit integers and a Python integer: a new
    tensor, the products kept in 32 bits. *)
Definition mul_int32 {B} (t : Tensor) (c : Z) : M B Tensor :=
  fun w =>
    alloc (type t) (device_type t) true
      (map (map (fun x =>
                   match x with
                   | Num z => Num (wrap32 (z * c))
                   | _ => x
                   end))
         (data_of w t)) w.

(** [a // b] *)
Definition floordiv {B} (a b : Z) : M B Z :=
  if b =? 0 then raise ZeroDivisionError else ret (a / b).

(** An argument that must be a tensor to have [.new()], [.size()]: the
    callers of alltoall may pass [None] or a plain sequence instead. *)
Definition tensor_attr {B} (x : Splits) : M B Tensor :=
  match x with
  | SplitsTensor t => ret t
  | _ => raise AttributeError
  end.

(** The value returned by a collective, passed on as [splits]. *)
Definition splits_of_value {B} (v : Value) : M B Splits :=
  match v with
  | VNone => ret SplitsNone
  | VTensor t => ret (SplitsTensor t)
  | VTuple _ => raise TypeError
  end.

(** Context saved by [HorovodAlltoall.forward]: the [tensor] and [splits]
    arguments as they were passed. *)
Record AlltoallCtx := mkAlltoallCtx {
  ctx_tensor : Splits;
  ctx_splits : Splits
}.

(** A gradient compression strategy: [compress(tensor)] gives the
    compressed tensor and a context, [decompress(tensor, ctx)] undoes it. *)
Record Compressor (B : Type) := mkCompressor {
  compress_ctx : Type;
  compress : Tensor -> M B (Tensor * compress_ctx);
  decompress : Value -> compress_ctx -> M B Value
}.

Arguments compress_ctx {B} _.
Arguments compress {B} _ _.
Arguments decompress {B} _ _ _.

(** Modelled from the spec: [horovod.torch.compression] is not among the
    sources; the default [Compression.none] is the identity ("a no-op
    identity implementation must exist as default"). *)
Definition Compression_none {B} : Compressor B :=
  mkCompressor B unit (fun tensor => ret (tensor, tt)) (fun tensor _ => ret tensor).

(** Contexts saved by [forward] for [backward]. *)
Record AllreduceCtx := mkAllreduceCtx {
  ctx_op : ReduceOp;
  ctx_prescale_factor : Q;
  ctx_postscale_factor : Q
}.

Record AllgatherCtx := mkAllgatherCtx { ctx_dim : Z }.

Record BroadcastCtx := mkBroadcastCtx { ctx_root_rank : Z }.

(** A tensor argument that must be a tensor object. *)
Definition as_tensor {B} (v : Value) : M B Tensor :=
  match v with
  | VTensor t => ret t
  | _ => raise AttributeError
  end.

(** ** The module's functions *)

Section Dispatch.

Context {B : Type}.
Variable mpi_lib : MpiLib B.
Variable hvd : HorovodBasics.

(** [getattr(mpi_lib, function)(...)]: the call is logged, the engine
    answers with a handle or raises [RuntimeError]. *)
Definition mpi_lib_call (c : Call) : M B Z :=
  fun w =>
    let '(r, b) := invoke mpi_lib c (heap w) (engine w) in
    let w' := mkWorld (_handle_map w) (heap w) (next_tid w) b
                (warnings w) (submitted w ++ [c]) in
    match r with
    | inl e => (Raise (RuntimeError e), w')
    | inr handle => (Return handle, w')
    end.

(** [mpi_lib.horovod_torch_wait_and_clear(handle)] *)
Definition wait_and_clear (handle : Z) : M B unit :=
  fun w =>
    let '(r, h, b) :=
      horovod_torch_wait_and_clear mpi_lib handle (heap w) (engine w) in
    let w' := mkWorld (_handle_map w) h (next_tid w) b
                (warnings w) (submitted w) in
    match r with
    | Some e => (Raise (RuntimeError e), w')
    | None => (Return tt, w')
    end.

Definition _check_function (function_factory : Tensor -> string)
    (tensor : Tensor) : M B string :=
  let function := function_factory tensor in
  if negb (hasattr mpi_lib function) then
    raise (ValueError (not_supported_msg tensor))
  else if negb (is_contiguous tensor) then
    raise (ValueError not_contiguous_msg)
  else ret function.

Definition _allreduce_function_factory (tensor : Tensor) : string :=
  "horovod_torch_allreduce_async_" +:+ replace "." "_" (type tensor).

Definition _allreduce_async (tensor output : Tensor) (name : option string)
    (op : ReduceOp) (prescale_factor postscale_factor : Q) : M B Z :=
  let* '(op, divisor) :=
    (if decide (op = Average) then
       if rocm_built hvd then ret (Sum, size hvd)
       else ret (op, 1)
     else if decide (op = Adasum) then
       if negb (String.eqb (device_type tensor) "cpu") && gpu_available hvd
       then
         if nccl_built hvd then
           (if negb (is_homogeneous hvd) then
              raise (NotImplementedError heterogeneous_msg)
            else
              let* nodes := int_truediv (size hvd) (local_size hvd) in
              if negb (num_rank_is_power_2 nodes) then
                raise (NotImplementedError non_power_2_nodes_msg)
              else ret tt) ;;
           if rocm_built hvd then ret (op, local_size hvd)
           else ret (op, 1)
         else
           warn adasum_mpi_warning ;;
           ret (op, 1)
       else
         (if negb (num_rank_is_power_2 (size hvd)) then
            raise (NotImplementedError non_power_2_ranks_msg)
          else ret tt) ;;
         ret (op, 1)
     else ret (op, 1)) in
  let* function := _check_function _allreduce_function_factory tensor in
  let* handle :=
    except_RuntimeError
      (mpi_lib_call
         (AllreduceCall function tensor output divisor (encode_name name) op
            prescale_factor postscale_factor)) in
  handle_map_setitem handle (Pair (VTensor tensor) (VTensor output)) ;;
  ret handle.

Definition allreduce_async (tensor : Tensor) (name : option string)
    (op : ReduceOp) (prescale_factor postscale_factor : Q) : M B Z :=
  let* output := tensor_new_like tensor in
  _allreduce_async tensor output name op prescale_factor postscale_factor.

Definition synchronize (handle : Z) : M B Value :=
  let* present := handle_map_contains handle in
  if negb present then ret VNone
  else
    except_RuntimeError
      (wait_and_clear handle ;;
       let* entry := handle_map_pop handle in
       let output := entry_last entry in
       ret output).

Definition allreduce_async_ (tensor : Tensor) (name : option string)
    (op : ReduceOp) (prescale_factor postscale_factor : Q) : M B Z :=
  _allreduce_async tensor tensor name op prescale_factor postscale_factor.

Definition allreduce_ (tensor : Tensor) (name : option string)
    (op : ReduceOp) (prescale_factor postscale_factor : Q) : M B Value :=
  let* handle :=
    allreduce_async_ tensor name op prescale_factor postscale_factor in
  synchronize handle.

Definition _grouped_allreduce_function_factory (tensor : Tensor) : string :=
  "horovod_torch_grouped_allreduce_async_" +:+ replace "." "_" (type tensor).

Definition _grouped_allreduce_async (tensors outputs : list Tensor)
    (name : option string) (op : ReduceOp)
    (prescale_factor postscale_factor : Q) : M B Z :=
  let* '(op, divisor) :=
    (if decide (op = Average) then
       if rocm_built hvd then ret (Sum, size hvd)
       else ret (op, 1)
     else if decide (op = Adasum) then
       let* tensor0 := getitem0 tensors in
       if negb (String.eqb (device_type tensor0) "cpu") && gpu_available hvd
       then
         if nccl_built hvd then
           (if negb (is_homogeneous hvd) then
              raise (NotImplementedError heterogeneous_msg)
            else
              let* nodes := int_truediv (size hvd) (local_size hvd) in
              if negb (num_rank_is_power_2 nodes) then
                raise (NotImplementedError non_power_2_nodes_msg)
              else ret tt) ;;
           if rocm_built hvd then ret (op, local_size hvd)
           else ret (op, 1)
         else
           warn adasum_mpi_warning ;;
           ret (op, 1)
       else
         (if negb (num_rank_is_power_2 (size hvd)) then
            raise (NotImplementedError non_power_2_ranks_msg)
          else ret tt) ;;
         ret (op, 1)
     else ret (op, 1)) in
  let* tensor0 := getitem0 tensors in
  let* function :=
    _check_function _grouped_allreduce_function_factory tensor0 in
  let* handle :=
    except_RuntimeError
      (mpi_lib_call
         (GroupedAllreduceCall function tensors outputs divisor
            (encode_name name) op prescale_factor postscale_factor)) in
  handle_map_setitem handle (Pair (VTuple tensors) (VTuple outputs)) ;;
  ret handle.

Definition grouped_allreduce_async_ (tensors : list Tensor)
    (name : option string) (op : ReduceOp)
    (prescale_factor postscale_factor : Q) : M B Z :=
  _grouped_allreduce_async tensors tensors name op
    prescale_factor postscale_factor.

Definition _allgather_function_factory (tensor : Tensor) : string :=
  "horovod_torch_allgather_async_" +:+ replace "." "_" (type tensor).

Definition _allgather_async (tensor output : Tensor)
    (name : option string) : M B Z :=
  let* function := _check_function _allgather_function_factory tensor in
  let* handle :=
    except_RuntimeError
      (mpi_lib_call (AllgatherCall function tensor output (encode_name name)))
  in
  handle_map_setitem handle (Pair (VTensor tensor) (VTensor output)) ;;
  ret handle.

Definition allgather_async (tensor : Tensor) (name : option string) : M B Z :=
  let* output := tensor_new_empty tensor in
  _allgather_async tensor output name.

Definition _broadcast_function_factory (tensor : Tensor) : string :=
  "horovod_torch_broadcast_async_" +:+ replace "." "_" (type tensor).

Definition _broadcast_async (tensor output : Tensor) (root_rank : Z)
    (name : option string) : M B Z :=
  let* function := _check_function _broadcast_function_factory tensor in
  let* handle :=
    except_RuntimeError
      (mpi_lib_call
         (BroadcastCall function tensor output root_rank (encode_name name)))
  in
  handle_map_setitem handle (Pair (VTensor tensor) (VTensor output)) ;;
  ret handle.

Definition broadcast_async (tensor : Tensor) (root_rank : Z)
    (name : option string) : M B Z :=
  let* output := tensor_new_like tensor in
  _broadcast_async tensor output root_rank name.

Definition broadcast_async_ (tensor : Tensor) (root_rank : Z)
    (name : option string) : M B Z :=
  _broadcast_async tensor tensor root_rank name.

Definition _alltoall_function_factory (tensor : Tensor) : string :=
  "horovod_torch_alltoall_async_" +:+ replace "." "_" (type tensor).

Definition _alltoall_async (tensor : Tensor) (splits : Splits)
    (output : Tensor) (name : option string) : M B Z :=
  let* splits :=
    match splits with
    | SplitsNone => int32_tensor []
    | SplitsSeq l => int32_tensor l
    | SplitsTensor t => ret t
    end in
  let* function := _check_function _alltoall_function_factory tensor in
  let* handle :=
    except_RuntimeError
      (mpi_lib_call
         (AlltoallCall function tensor splits output (encode_name name))) in
  handle_map_setitem handle
    (Triple (VTensor tensor) (VTensor splits) (VTensor output)) ;;
  ret handle.

(** *** Differentiable wrappers

    [Function.apply] runs [forward] with a fresh context; the engine of
    differentiation later runs [backward] with that context. *)

Definition HorovodAllreduce_forward (tensor : Tensor) (name : option string)
    (op : ReduceOp) (prescale_factor postscale_factor : Q)
    : M B (AllreduceCtx * Value) :=
  let ctx := mkAllreduceCtx op prescale_factor postscale_factor in
  let* handle :=
    allreduce_async tensor name op prescale_factor postscale_factor in
  let* result := synchronize handle in
  ret (ctx, result).

Definition allreduce (tensor : Tensor) (name : option string)
    (compression : Compressor B) (op : ReduceOp)
    (prescale_factor postscale_factor : Q) : M B Value :=
  let* '(tensor_compressed, ctx) := compress compression tensor in
  let* '(_, summed_tensor_compressed) :=
    HorovodAllreduce_forward tensor_compressed name op
      prescale_factor postscale_factor in
  decompress compression summed_tensor_compressed ctx.

Definition HorovodAllreduce_backward (ctx : AllreduceCtx)
    (grad_output : Tensor) : M B Value :=
  allreduce grad_output None Compression_none (ctx_op ctx)
    (ctx_prescale_factor ctx) (ctx_postscale_factor ctx).

Definition HorovodAllgather_forward (tensor : Tensor) (name : option string)
    : M B (AllgatherCtx * Value) :=
  let* dim := shape0 tensor in
  let ctx := mkAllgatherCtx dim in
  let* handle := allgather_async tensor name in
  let* result := synchronize handle in
  ret (ctx, result).

Definition allgather (tensor : Tensor) (name : option string) : M B Value :=
  let* '(_, result) := HorovodAllgather_forward tensor name in
  ret result.

Definition HorovodAllgather_backward (ctx : AllgatherCtx)
    (grad_output : Tensor) : M B Value :=
  let* grad_reduced := allreduce grad_output None Compression_none Sum 1 1 in
  let* dim_t := int32_tensor [ctx_dim ctx] in
  let* gathered := allgather dim_t None in
  let* dim := view1 gathered (size hvd) in
  let r := rank hvd in
  let* offset :=
    (if negb (r =? 0) then
       let* lower := narrow0 dim 0 r in
       sum_item lower
     else ret 0) in
  narrow0 grad_reduced offset (ctx_dim ctx).

Definition HorovodBroadcast_forward (tensor : Tensor) (root_rank : Z)
    (name : option string) : M B (BroadcastCtx * Value) :=
  let ctx := mkBroadcastCtx root_rank in
  let* handle := broadcast_async tensor root_rank name in
  let* result := synchronize handle in
  ret (ctx, result).

Definition broadcast (tensor : Tensor) (root_rank : Z)
    (name : option string) : M B Value :=
  let* '(_, result) := HorovodBroadcast_forward tensor root_rank name in
  ret result.

Definition HorovodBroadcast_backward (ctx : BroadcastCtx)
    (grad_output : Tensor) : M B Value :=
  let* grad_reduced := allreduce grad_output None Compression_none Sum 1 1 in
  let* grad_reduced :=
    (if negb (rank hvd =? ctx_root_rank ctx) then imul grad_reduced 0
     else ret grad_reduced) in
  ret grad_reduced.

(** *** Grouped allreduce, in-place variants and alltoall *)

(** [[t.new(t.shape) for t in tensors]] *)
Fixpoint new_like_each (tensors : list Tensor) : M B (list Tensor) :=
  match tensors with
  | [] => ret []
  | t :: ts =>
      let* output := tensor_new_like t in
      let* outputs := new_like_each ts in
      ret (output :: outputs)
  end.

Definition grouped_allreduce_async (tensors : list Tensor)
    (name : option string) (op : ReduceOp)
    (prescale_factor postscale_factor : Q) : M B Z :=
  let* outputs := new_like_each tensors in
  _grouped_allreduce_async tensors outputs name op
    prescale_factor postscale_factor.

Definition HorovodGroupedAllreduce_forward (name : option string)
    (op : ReduceOp) (prescale_factor postscale_factor : Q)
    (tensors : list Tensor) : M B (AllreduceCtx * Value) :=
  let ctx := mkAllreduceCtx op prescale_factor postscale_factor in
  let* handle :=
    grouped_allreduce_async tensors name op
      prescale_factor postscale_factor in
  let* result := synchronize handle in
  ret (ctx, result).

(** [[compression.compress(t) for t in tensors]] *)
Fixpoint compress_each (compression : Compressor B)
    (tensors : list Tensor)
    : M B (list (Tensor * compress_ctx compression)) :=
  match tensors with
  | [] => ret []
  | t :: ts =>
      let* c := compress compression t in
      let* cs := compress_each compression ts in
      ret (c :: cs)
  end.

(** [[compression.decompress(t, ctx) for t, ctx in zip(ts, ctxs)]] *)
Fixpoint decompress_each (compression : Compressor B)
    (pairs : list (Tensor * compress_ctx compression))
    : M B (list Value) :=
  match pairs with
  | [] => ret []
  | (t, ctx) :: ps =>
      let* v := decompress compression (VTensor t) ctx in
      let* vs := decompress_each compression ps in
      ret (v :: vs)
  end.

(** The compressed tensors and their contexts are the two tuples of the
    transposed list of pairs; the transpose of an empty list has no tuple
    to unpack. *)
Definition grouped_allreduce (tensors : list Tensor) (name : option string)
    (compression : Compressor B) (op : ReduceOp)
    (prescale_factor postscale_factor : Q) : M B (list Value) :=
  let* pairs := compress_each compression tensors in
  let* '(tensors_compressed, ctxs) :=
    (match pairs with
     | [] =>
         raise
           (ValueError "not enough values to unpack (expected 2, got 0)")
     | _ => ret (map fst pairs, map snd pairs)
     end) in
  let* '(_, summed_tensors_compressed) :=
    HorovodGroupedAllreduce_forward name op prescale_factor postscale_factor
      tensors_compressed in
  match summed_tensors_compressed with
  | VTuple ts => decompress_each compression (zip ts ctxs)
  | _ => raise TypeError
  end.

Definition HorovodGroupedAllreduce_backward (ctx : AllreduceCtx)
    (grad_output : list Tensor) : M B (list Value) :=
  grouped_allreduce grad_output None Compression_none (ctx_op ctx)
    (ctx_prescale_factor ctx) (ctx_postscale_factor ctx).

Definition grouped_allreduce_ (tensors : list Tensor) (name : option string)
    (op : ReduceOp) (prescale_factor postscale_factor : Q) : M B Value :=
  let* handle :=
    grouped_allreduce_async_ tensors name op
      prescale_factor postscale_factor in
  synchronize handle.

Definition broadcast_ (tensor : Tensor) (root_rank : Z)
    (name : option string) : M B Value :=
  let* handle := broadcast_async_ tensor root_rank name in
  synchronize handle.

Definition alltoall_async (tensor : Splits) (splits : Splits)
    (name : option string) : M B Z :=
  let* tensor := tensor_attr tensor in
  let* output := tensor_new_empty tensor in
  _alltoall_async tensor splits output name.

Definition HorovodAlltoall_forward (tensor : Splits) (splits : Splits)
    (name : option string) : M B (AlltoallCtx * Value) :=
  let ctx := mkAlltoallCtx tensor splits in
  let* handle := alltoall_async tensor splits name in
  let* result := synchronize handle in
  ret (ctx, result).

Definition alltoall (tensor : Splits) (splits : Splits)
    (name : option string) : M B Value :=
  let* '(_, result) := HorovodAlltoall_forward tensor splits name in
  ret result.

Definition HorovodAlltoall_backward (ctx : AlltoallCtx)
    (grad_output : Tensor) : M B Value :=
  let* recvsplits :=
    (match ctx_splits ctx with
     | SplitsNone =>
         let* ones := ones_int32 (size hvd) in
         let* t := tensor_attr (ctx_tensor ctx) in
         let* rows := shape0 t in
         let* share := floordiv rows (size hvd) in
         let* splits_equal := mul_int32 ones share in
         let* unit_splits := ones_int32 (size hvd) in
         alltoall (SplitsTensor splits_equal) (SplitsTensor unit_splits) None
     | given =>
         let* unit_splits := ones_int32 (size hvd) in
         alltoall given (SplitsTensor unit_splits) None
     end) in
  let* splits := splits_of_value recvsplits in
  alltoall (SplitsTensor grad_output) splits None.

End Dispatch.

(** ** The native engine on a cluster

    Modelled from the spec: the native communication engine ([mpi_lib_v2])
    is not among the sources.  The spec gives the collectives their
    meaning: a reduction with [Sum] and default scale factors adds the
    ranks' tensors elementwise, a gather concatenates them along axis 0 in
    rank order, a broadcast copies the root's tensor.  This rank sees the
    other ranks through what they contribute to each collective. *)

Definition add_data (a b : list (list Elem)) : list (list Elem) :=
  zip_with (zip_with elem_add) a b.

(** Elementwise sum of the ranks' tensors. *)
Definition reduce_sum (ds : list (list (list Elem))) : list (list Elem) :=
  match ds with
  | [] => []
  | d :: ds' => foldl add_data d ds'
  end.

Definition shape (d : list (list Elem)) : list nat := map length d.

(** The tensors of one reduction must have one shape on all ranks. *)
Definition all_same_shape (ds : list (list (list Elem))) : bool :=
  match ds with
  | [] => true
  | d :: ds' => forallb (fun d' => bool_decide (shape d' = shape d)) ds'
  end.

(** State of the engine: the next handle, the operations in flight with
    their position in the sequence of collectives, and the number of
    collectives submitted so far. *)
Record ClusterEngine := mkEngine {
  next_handle : Z;
  pending : gmap Z (Call * nat);
  issued : nat
}.

(** The cluster as seen from rank [me]: the entry points the build has,
    what the ranks contribute to the n-th collective (this rank's own
    contribution is read from its input tensor), and the results the spec
    does not define. *)
Record Cluster := mkCluster {
  me : nat;
  built : string -> bool;
  peers : nat -> list (list (list Elem));
  unspecified : Call -> list (list (list Elem)) -> list (list Elem)
}.

Definition call_input (c : Call) : option Tensor :=
  match c with
  | AllreduceCall _ t _ _ _ _ _ _ => Some t
  | GroupedAllreduceCall _ ts _ _ _ _ _ _ => head ts
  | AllgatherCall _ t _ _ => Some t
  | BroadcastCall _ t _ _ _ => Some t
  | AlltoallCall _ t _ _ _ => Some t
  end.

Definition call_output (c : Call) : option Tensor :=
  match c with
  | AllreduceCall _ _ o _ _ _ _ _ => Some o
  | GroupedAllreduceCall _ _ os _ _ _ _ _ => head os
  | AllgatherCall _ _ o _ => Some o
  | BroadcastCall _ _ o _ _ => Some o
  | AlltoallCall _ _ _ o _ => Some o
  end.

(** What the ranks contribute to the n-th collective, this rank's part
    taken from its input tensor. *)
Definition contributions (c : Cluster) (n : nat) (own : list (list Elem))
    : list (list (list Elem)) :=
  <[me c := own]> (peers c n).

(** The result of a collective, or the message of the failure. *)
Definition collective_result (c : Cluster) (call : Call)
    (ds : list (list (list Elem))) : string + list (list Elem) :=
  match call with
  | AllreduceCall _ _ _ divisor _ op prescale postscale =>
      if bool_decide (op = Sum) && (divisor =? 1)
         && Qeq_bool prescale 1 && Qeq_bool postscale 1
      then
        if all_same_shape ds then inr (reduce_sum ds)
        else inl "Mismatched allreduce tensor shapes."
      else inr (unspecified c call ds)
  | AllgatherCall _ _ _ _ => inr (concat ds)
  | BroadcastCall _ _ _ root_rank _ =>
      if root_rank <? 0 then inl "Invalid root rank."
      else
        match ds !! Z.to_nat root_rank with
        | Some d => inr d
        | None => inl "Invalid root rank."
        end
  | _ => inr (unspecified c call ds)
  end.

Definition cluster_invoke (c : Cluster) (call : Call)
    (h : gmap N (list (list Elem))) (e : ClusterEngine)
    : (string + Z) * ClusterEngine :=
  (inr (next_handle e),
   mkEngine (next_handle e + 1)
     (<[next_handle e := (call, issued e)]> (pending e))
     (S (issued e))).

Definition cluster_wait_and_clear (c : Cluster) (handle : Z)
    (h : gmap N (list (list Elem))) (e : ClusterEngine)
    : option string * gmap N (list (list Elem)) * ClusterEngine :=
  match pending e !! handle with
  | None => (Some "Handle not found.", h, e)
  | Some (call, n) =>
      let e' := mkEngine (next_handle e) (delete handle (pending e))
                  (issued e) in
      match call_input call, call_output call with
      | Some t, Some o =>
          let own := default [] (h !! tid t) in
          match collective_result c call (contributions c n own) with
          | inl msg => (Some msg, h, e')
          | inr d => (None, <[tid o := d]> h, e')
          end
      | _, _ => (Some "Empty tensor list.", h, e')
      end
  end.

Definition cluster_mpi_lib (c : Cluster) : MpiLib ClusterEngine :=
  mkMpiLib ClusterEngine (built c) (cluster_invoke c)
    (cluster_wait_and_clear c).

(** ** Notions used in the statements *)

(** A count is a power of two. *)
Definition power_of_two (n : Z) : Prop := exists k : Z, 0 <= k /\ n = 2 ^ k.

(** The sum of the first [k] extents. *)
Definition offset_of (r : list nat) (k : nat) : Z :=
  foldr Z.add 0 (map Z.of_nat (take k r)).

(** The output tensor a non-in-place collective allocates for [tensor]. *)
Definition fresh_like {B} (w : World B) (tensor : Tensor) : Tensor :=
  mkTensor (next_tid w) (type tensor) (device_type tensor) true.

(** A tensor of zeros. *)
Definition zeros_like (d : list (list Elem)) : list (list Elem) :=
  map (map (fun _ => Num 0)) d.

(** A tensor multiplied by zero, element by element. *)
Definition times_zero (d : list (list Elem)) : list (list Elem) :=
  map (map (fun x => elem_mul x (Num 0))) d.

(** What a step that creates the tensor [t] with elements [d] does to the
    storage: [t] is the fresh tensor, and the tensors that existed keep
    their elements. *)
Definition creates {B} (w w' : World B) (t : Tensor) (d : list (list Elem))
    : Prop :=
  tid t = next_tid w
  /\ next_tid w' = N.succ (next_tid w)
  /\ data_of w' t = d
  /\ forall t0, (tid t0 < next_tid w)%N -> data_of w' t0 = data_of w t0.

(** The exception a call raises on its own, before or without the
    backend: a failure of the backend surfaces as [HorovodInternalError]. *)
Definition local_failure {A} (r : Result A) : option Exception :=
  match r with
  | Raise (HorovodInternalError _) => None
  | Raise e => Some e
  | Return _ => None
  end.

(** ** Concrete environments

    A four-rank cluster with row counts 2, 3, 1, 4 seen from rank 2, and a
    few tensors, used to run the definitions. *)

Definition ex_rows : list nat := [2; 3; 1; 4]%nat.

Definition ex_grad (v : Z) : list (list Elem) :=
  replicate 10 [Num v; Num (v + 1)].

Definition ex_cluster : Cluster :=
  mkCluster 2 (fun _ => true)
    (fun n =>
       match n with
       | O => [ex_grad 1; ex_grad 10; ex_grad 100; ex_grad 1000]
       | _ => map (fun x => [[Num (Z.of_nat x)]]) ex_rows
       end)
    (fun _ _ => []).

Definition ex_lib : MpiLib ClusterEngine := cluster_mpi_lib ex_cluster.

(** A four-rank cluster on which rank 1 contributes an infinite gradient,
    seen from rank 2, and this rank's state there. *)
Definition ex_cluster_inf : Cluster :=
  mkCluster 2 (fun _ => true)
    (fun _ => [[[Num 1]]; [[PosInf]]; [[Num 3]]; [[Num 4]]])
    (fun _ _ => []).

Definition ex_world_inf : World ClusterEngine :=
  mkWorld ∅ {[ 0%N := [[Num 3]] ]} 1 (mkEngine 0 ∅ 0) [] [].

(** A build without entry points for half-precision tensors. *)
Definition ex_lib_no_half : MpiLib ClusterEngine :=
  cluster_mpi_lib
    (mkCluster 2
       (fun f =>
          negb (String.eqb f "horovod_torch_allreduce_async_torch_HalfTensor")
          && negb (String.eqb f
                     "horovod_torch_grouped_allreduce_async_torch_HalfTensor"))
       (peers ex_cluster) (unspecified ex_cluster)).

(** An engine that hands out the same handle again and again, and one
    whose operations fail on completion. *)
Definition ex_lib_same_handle : MpiLib unit :=
  mkMpiLib unit (fun _ => true) (fun _ _ b => (inr 7, b))
    (fun _ h b => (None, h, b)).

Definition ex_lib_failing : MpiLib unit :=
  mkMpiLib unit (fun _ => true) (fun _ _ b => (inr 7, b))
    (fun _ h b => (Some "allreduce failed", h, b)).

(** Topologies: 4 ranks on one-GPU nodes; 3 ranks; 4 ranks on a ROCm
    build with NCCL and 2 ranks per node; 6 ranks with a GPU but no NCCL. *)
Definition ex_hvd : HorovodBasics := mkBasics 4 1 2 false false true false.

Definition ex_hvd3 : HorovodBasics := mkBasics 3 1 0 false false true false.

Definition ex_hvd_rocm : HorovodBasics := mkBasics 4 2 2 true true true true.

Definition ex_hvd_nccl6 : HorovodBasics := mkBasics 6 2 2 false true true true.

Definition ex_hvd_hetero : HorovodBasics := mkBasics 4 2 2 false true false true.

Definition ex_hvd_mpi_gpu : HorovodBasics := mkBasics 6 2 0 false false false true.

Definition ex_tensor : Tensor := mkTensor 0 "torch.FloatTensor" "cpu" true.

Definition ex_output : Tensor := mkTensor 1 "torch.FloatTensor" "cpu" true.

Definition ex_cuda : Tensor := mkTensor 0 "torch.cuda.FloatTensor" "cuda" true.

Definition ex_strided : Tensor := mkTensor 1 "torch.FloatTensor" "cpu" false.

Definition ex_half : Tensor := mkTensor 0 "torch.HalfTensor" "cpu" true.

Definition ex_world : World ClusterEngine :=
  mkWorld ∅
    (<[1%N := [[Num 0; Num 0]]]>
       {[ 0%N := map (fun i => [Num (Z.of_nat i); Num 7]) (seq 0 10) ]})
    2 (mkEngine 0 ∅ 0) [] [].

Definition ex_world_unit : World unit :=
  mkWorld ∅ ∅ 2 tt [] [].

(** A process state with one operation in flight under handle 7. *)
Definition ex_entry : Entry := Pair (VTensor ex_tensor) (VTensor ex_output).

Definition ex_world_pending : World unit :=
  mkWorld {[ 7 := ex_entry ]} ∅ 2 tt [] [].

(** ** Basic facts *)

Lemma num_rank_is_power_2_spec (n : Z) :
  num_rank_is_power_2 n = true <-> power_of_two n.
Proof.
  unfold num_rank_is_power_2, power_of_two. split.
  - intros H. apply andb_true_iff in H as [Hpos Hpow].
    apply Z.eqb_eq in Hpow. exists (Z.log2 n). split.
    + apply Z.log2_nonneg.
    + symmetry. exact Hpow.
  - intros (k & Hk & ->). apply andb_true_iff. split.
    + apply Z.ltb_lt. apply Z.pow_pos_nonneg; lia.
    + apply Z.eqb_eq. rewrite Z.log2_pow2 by exact Hk. reflexivity.
Qed.

Lemma num_rank_is_power_2_false (n : Z) :
  ~ power_of_two n -> num_rank_is_power_2 n = false.
Proof.
  intros H. destruct (num_rank_is_power_2 n) eqn:E; [| reflexivity].
  exfalso. apply H. apply num_rank_is_power_2_spec. exact E.
Qed.

Lemma num_rank_is_power_2_true (n : Z) :
  power_of_two n -> num_rank_is_power_2 n = true.
Proof. apply num_rank_is_power_2_spec. Qed.

Lemma eqb_cpu_false (s : string) : s <> "cpu" -> String.eqb s "cpu" = false.
Proof. intros H. apply String.eqb_neq. exact H. Qed.

(** Unfolding of the monad and of the primitive steps. *)
Ltac py_unfold :=
  unfold _allreduce_async, _grouped_allreduce_async, _allgather_async,
    _broadcast_async, _alltoall_async, _check_function, getitem0,
    int_truediv, mpi_lib_call, handle_map_setitem, except_RuntimeError,
    warn, bind, ret, raise.

Ltac py_step :=
  match goal with
  | |- context [invoke ?l ?c ?h ?b] =>
      let r := fresh "r" in
      let b' := fresh "b" in
      destruct (invoke l c h b) as [[r | r] b']
  end.

(** ** The divisor/op policy *)

(** C1: an allreduce dispatch (single-tensor or grouped) requested with
    [Average] and passing the local validation hands the backend [Sum]
    with divisor [size()] on a ROCm build, and [Average] with divisor 1
    otherwise. *)
Theorem average_policy {B} (mpi_lib : MpiLib B) (hvd : HorovodBasics)
    (tensor : Tensor) (rest : list Tensor) (output : Tensor)
    (outputs : list Tensor) (name : option string)
    (prescale_factor postscale_factor : Q) (w : World B) :
  hasattr mpi_lib (_allreduce_function_factory tensor) = true ->
  hasattr mpi_lib (_grouped_allreduce_function_factory tensor) = true ->
  is_contiguous tensor = true ->
  submitted
    (snd (_allreduce_async mpi_lib hvd tensor output name Average
            prescale_factor postscale_factor w))
  = submitted w ++
      [AllreduceCall (_allreduce_function_factory tensor) tensor output
         (if rocm_built hvd then size hvd else 1) (encode_name name)
         (if rocm_built hvd then Sum else Average)
         prescale_factor postscale_factor]
  /\ submitted
       (snd (_grouped_allreduce_async mpi_lib hvd (tensor :: rest) outputs
               name Average prescale_factor postscale_factor w))
     = submitted w ++
         [GroupedAllreduceCall (_grouped_allreduce_function_factory tensor)
            (tensor :: rest) outputs
            (if rocm_built hvd then size hvd else 1) (encode_name name)
            (if rocm_built hvd then Sum else Average)
            prescale_factor postscale_factor].
Proof.
  intros Hs Hg Hc. split.
  - py_unfold. simpl. destruct (rocm_built hvd); simpl;
      rewrite Hs, Hc; simpl; py_step; reflexivity.
  - py_unfold. simpl. destruct (rocm_built hvd); simpl;
      rewrite Hg, Hc; simpl; py_step; reflexivity.
Qed.

Lemma average_policy_witness :
  submitted
    (snd (_allreduce_async ex_lib ex_hvd_rocm ex_tensor ex_output None
            Average 1 1 ex_world))
  = [AllreduceCall "horovod_torch_allreduce_async_torch_FloatTensor"
       ex_tensor ex_output 4 "" Sum 1 1]
  /\ submitted
       (snd (_grouped_allreduce_async ex_lib ex_hvd_rocm
               [ex_tensor; ex_strided] [ex_tensor; ex_strided] None
               Average 1 1 ex_world))
     = [GroupedAllreduceCall
          "horovod_torch_grouped_allreduce_async_torch_FloatTensor"
          [ex_tensor; ex_strided] [ex_tensor; ex_strided] 4 "" Sum 1 1].
Proof.
  apply (average_policy ex_lib ex_hvd_rocm ex_tensor [ex_strided] ex_output
           [ex_tensor; ex_strided] None 1 1 ex_world); reflexivity.
Defined.

(** C2: an allreduce dispatch requested with [Adasum] for a CPU tensor
    (or without an available GPU) fails with the capability error, the
    state untouched and nothing submitted, when [size()] is not a power of
    two; when it is one, the divisor handed to the backend is 1. *)
Theorem adasum_cpu_policy {B} (mpi_lib : MpiLib B) (hvd : HorovodBasics)
    (tensor : Tensor) (rest : list Tensor) (output : Tensor)
    (outputs : list Tensor) (name : option string)
    (prescale_factor postscale_factor : Q) (w : World B) :
  device_type tensor = "cpu" \/ gpu_available hvd = false ->
  (~ power_of_two (size hvd) ->
   _allreduce_async mpi_lib hvd tensor output name Adasum
     prescale_factor postscale_factor w
   = (Raise (NotImplementedError non_power_2_ranks_msg), w)
   /\ _grouped_allreduce_async mpi_lib hvd (tensor :: rest) outputs name
        Adasum prescale_factor postscale_factor w
      = (Raise (NotImplementedError non_power_2_ranks_msg), w))
  /\ (power_of_two (size hvd) ->
      hasattr mpi_lib (_allreduce_function_factory tensor) = true ->
      hasattr mpi_lib (_grouped_allreduce_function_factory tensor) = true ->
      is_contiguous tensor = true ->
      submitted
        (snd (_allreduce_async mpi_lib hvd tensor output name Adasum
                prescale_factor postscale_factor w))
      = submitted w ++
          [AllreduceCall (_allreduce_function_factory tensor) tensor output
             1 (encode_name name) Adasum prescale_factor postscale_factor]
      /\ submitted
           (snd (_grouped_allreduce_async mpi_lib hvd (tensor :: rest)
                   outputs name Adasum prescale_factor postscale_factor w))
         = submitted w ++
             [GroupedAllreduceCall
                (_grouped_allreduce_function_factory tensor)
                (tensor :: rest) outputs 1 (encode_name name) Adasum
                prescale_factor postscale_factor]).
Proof.
  intros Hdev.
  assert (Hcond : negb (String.eqb (device_type tensor) "cpu")
                  && gpu_available hvd = false).
  { destruct Hdev as [-> | ->]; [reflexivity | apply andb_false_r]. }
  split.
  - intros Hnp. apply num_rank_is_power_2_false in Hnp.
    split; py_unfold; simpl; rewrite Hcond, Hnp; reflexivity.
  - intros Hp Hs Hg Hc. apply num_rank_is_power_2_true in Hp.
    split; py_unfold; simpl; rewrite Hcond, Hp; simpl;
      rewrite ?Hs, ?Hg, Hc; simpl; py_step; reflexivity.
Qed.

Lemma three_not_power_of_two : ~ power_of_two 3.
Proof.
  intros H. apply num_rank_is_power_2_spec in H. discriminate H.
Qed.

Lemma four_power_of_two : power_of_two 4.
Proof. exists 2. split; [lia | reflexivity]. Qed.

Lemma adasum_cpu_policy_witness :
  _allreduce_async ex_lib ex_hvd3 ex_tensor ex_output None Adasum 1 1
    ex_world
  = (Raise (NotImplementedError non_power_2_ranks_msg), ex_world)
  /\ submitted
       (snd (_allreduce_async ex_lib ex_hvd ex_tensor ex_output None Adasum
               1 1 ex_world))
     = [AllreduceCall "horovod_torch_allreduce_async_torch_FloatTensor"
          ex_tensor ex_output 1 "" Adasum 1 1].
Proof.
  split.
  - apply (proj1 (adasum_cpu_policy ex_lib ex_hvd3 ex_tensor [] ex_output []
                    None 1 1 ex_world (or_introl eq_refl))
             three_not_power_of_two).
  - apply (proj2 (adasum_cpu_policy ex_lib ex_hvd ex_tensor [] ex_output []
                    None 1 1 ex_world (or_introl eq_refl))
             four_power_of_two eq_refl eq_refl eq_refl).
Defined.

(** C3: an allreduce dispatch requested with [Adasum] for a tensor that is
    not on the CPU, with a GPU available and NCCL built: on a
    heterogeneous cluster, or when the node count
    [int(size() / local_size())] is not a power of two, it fails with a
    capability error, the state untouched and nothing submitted;
    otherwise the divisor handed to the backend is [local_size()] on a
    ROCm build and 1 otherwise. *)
Theorem adasum_gpu_policy {B} (mpi_lib : MpiLib B) (hvd : HorovodBasics)
    (tensor : Tensor) (rest : list Tensor) (output : Tensor)
    (outputs : list Tensor) (name : option string)
    (prescale_factor postscale_factor : Q) (w : World B) :
  device_type tensor <> "cpu" ->
  gpu_available hvd = true ->
  nccl_built hvd = true ->
  local_size hvd <> 0 ->
  (is_homogeneous hvd = false
   \/ ~ power_of_two (Z.quot (size hvd) (local_size hvd)) ->
   exists msg,
     _allreduce_async mpi_lib hvd tensor output name Adasum
       prescale_factor postscale_factor w
     = (Raise (NotImplementedError msg), w)
     /\ _grouped_allreduce_async mpi_lib hvd (tensor :: rest) outputs name
          Adasum prescale_factor postscale_factor w
        = (Raise (NotImplementedError msg), w))
  /\ (is_homogeneous hvd = true ->
      power_of_two (Z.quot (size hvd) (local_size hvd)) ->
      hasattr mpi_lib (_allreduce_function_factory tensor) = true ->
      hasattr mpi_lib (_grouped_allreduce_function_factory tensor) = true ->
      is_contiguous tensor = true ->
      submitted
        (snd (_allreduce_async mpi_lib hvd tensor output name Adasum
                prescale_factor postscale_factor w))
      = submitted w ++
          [AllreduceCall (_allreduce_function_factory tensor) tensor output
             (if rocm_built hvd then local_size hvd else 1)
             (encode_name name) Adasum prescale_factor postscale_factor]
      /\ submitted
           (snd (_grouped_allreduce_async mpi_lib hvd (tensor :: rest)
                   outputs name Adasum prescale_factor postscale_factor w))
         = submitted w ++
             [GroupedAllreduceCall
                (_grouped_allreduce_function_factory tensor)
                (tensor :: rest) outputs
                (if rocm_built hvd then local_size hvd else 1)
                (encode_name name) Adasum
                prescale_factor postscale_factor]).
Proof.
  intros Hdev Hgpu Hnccl Hloc.
  apply eqb_cpu_false in Hdev. apply Z.eqb_neq in Hloc.
  split.
  - intros Hbad. destruct (is_homogeneous hvd) eqn:Hhom.
    + destruct Hbad as [Hbad | Hnp]; [discriminate Hbad |].
      apply num_rank_is_power_2_false in Hnp.
      exists non_power_2_nodes_msg.
      split; py_unfold; simpl; rewrite Hdev, Hgpu, Hnccl, Hhom; simpl;
        rewrite Hloc, Hnp; reflexivity.
    + exists heterogeneous_msg.
      split; py_unfold; simpl; rewrite Hdev, Hgpu, Hnccl, Hhom; reflexivity.
  - intros Hhom Hp Hs Hg Hc. apply num_rank_is_power_2_true in Hp.
    split; py_unfold; simpl; rewrite Hdev, Hgpu, Hnccl, Hhom; simpl;
      rewrite Hloc, Hp; simpl; destruct (rocm_built hvd); simpl;
      rewrite ?Hs, ?Hg, Hc; simpl; py_step; reflexivity.
Qed.

Lemma two_power_of_two : power_of_two 2.
Proof. exists 1. split; [lia | reflexivity]. Qed.

Lemma adasum_gpu_policy_witness :
  (exists msg,
     _allreduce_async ex_lib ex_hvd_nccl6 ex_cuda ex_output None Adasum 1 1
       ex_world
     = (Raise (NotImplementedError msg), ex_world)
     /\ _grouped_allreduce_async ex_lib ex_hvd_nccl6 [ex_cuda] [ex_output]
          None Adasum 1 1 ex_world
        = (Raise (NotImplementedError msg), ex_world))
  /\ submitted
       (snd (_allreduce_async ex_lib ex_hvd_rocm ex_cuda ex_output None
               Adasum 1 1 ex_world))
     = [AllreduceCall "horovod_torch_allreduce_async_torch_cuda_FloatTensor"
          ex_cuda ex_output 2 "" Adasum 1 1].
Proof.
  assert (Hcuda : device_type ex_cuda <> "cpu") by discriminate.
  assert (H2 : 2 <> 0) by discriminate.
  split.
  - apply (proj1 (adasum_gpu_policy ex_lib ex_hvd_nccl6 ex_cuda []
                    ex_output [ex_output] None 1 1 ex_world
                    Hcuda eq_refl eq_refl H2)).
    right. exact three_not_power_of_two.
  - apply (proj2 (adasum_gpu_policy ex_lib ex_hvd_rocm ex_cuda []
                    ex_output [] None 1 1 ex_world
                    Hcuda eq_refl eq_refl H2)
             eq_refl two_power_of_two eq_refl eq_refl eq_refl).
Defined.

(** C9: an allreduce dispatch requested with [Adasum] for a tensor that is
    not on the CPU, with a GPU available but NCCL not built, emits the
    warning and goes on to the validation and the backend with divisor 1,
    whatever the topology: it never raises a capability error. *)
Theorem adasum_mpi_fallback {B} (mpi_lib : MpiLib B) (hvd : HorovodBasics)
    (tensor : Tensor) (rest : list Tensor) (output : Tensor)
    (outputs : list Tensor) (name : option string)
    (prescale_factor postscale_factor : Q) (w : World B) :
  device_type tensor <> "cpu" ->
  gpu_available hvd = true ->
  nccl_built hvd = false ->
  let single :=
    _allreduce_async mpi_lib hvd tensor output name Adasum
      prescale_factor postscale_factor w in
  let grouped :=
    _grouped_allreduce_async mpi_lib hvd (tensor :: rest) outputs name
      Adasum prescale_factor postscale_factor w in
  (warnings (snd single) = warnings w ++ [adasum_mpi_warning]
   /\ (forall msg, fst single <> Raise (NotImplementedError msg))
   /\ (hasattr mpi_lib (_allreduce_function_factory tensor) = true ->
       is_contiguous tensor = true ->
       submitted (snd single)
       = submitted w ++
           [AllreduceCall (_allreduce_function_factory tensor) tensor
              output 1 (encode_name name) Adasum
              prescale_factor postscale_factor]))
  /\ (warnings (snd grouped) = warnings w ++ [adasum_mpi_warning]
      /\ (forall msg, fst grouped <> Raise (NotImplementedError msg))
      /\ (hasattr mpi_lib (_grouped_allreduce_function_factory tensor)
          = true ->
          is_contiguous tensor = true ->
          submitted (snd grouped)
          = submitted w ++
              [GroupedAllreduceCall
                 (_grouped_allreduce_function_factory tensor)
                 (tensor :: rest) outputs 1 (encode_name name) Adasum
                 prescale_factor postscale_factor])).
Proof.
  intros Hdev Hgpu Hnccl single grouped. subst single grouped.
  apply eqb_cpu_false in Hdev.
  split; py_unfold; simpl; rewrite Hdev, Hgpu, Hnccl; simpl.
  - destruct (hasattr mpi_lib (_allreduce_function_factory tensor));
      simpl; [| repeat split; [discriminate | discriminate]].
    destruct (is_contiguous tensor);
      simpl; [| repeat split; [discriminate | discriminate]].
    py_step; simpl; repeat split; discriminate.
  - destruct (hasattr mpi_lib (_grouped_allreduce_function_factory tensor));
      simpl; [| repeat split; [discriminate | discriminate]].
    destruct (is_contiguous tensor);
      simpl; [| repeat split; [discriminate | discriminate]].
    py_step; simpl; repeat split; discriminate.
Qed.

Lemma adasum_mpi_fallback_witness :
  warnings
    (snd (_allreduce_async ex_lib ex_hvd_mpi_gpu ex_cuda ex_output None
            Adasum 1 1 ex_world))
  = [adasum_mpi_warning]
  /\ submitted
       (snd (_allreduce_async ex_lib ex_hvd_mpi_gpu ex_cuda ex_output None
               Adasum 1 1 ex_world))
     = [AllreduceCall "horovod_torch_allreduce_async_torch_cuda_FloatTensor"
          ex_cuda ex_output 1 "" Adasum 1 1].
Proof.
  assert (Hcuda : device_type ex_cuda <> "cpu") by discriminate.
  pose proof (adasum_mpi_fallback ex_lib ex_hvd_mpi_gpu ex_cuda []
                ex_output [] None 1 1 ex_world Hcuda eq_refl eq_refl) as H.
  destruct H as [[Hw [_ Hs]] _].
  split; [exact Hw | exact (Hs eq_refl eq_refl)].
Defined.

(** ** Local validation *)

(** Case analysis on the conditions a dispatch tests, in program order. *)
Ltac py_cases :=
  repeat (simpl;
          match goal with
          | H : ?c = true |- context [if negb ?c then _ else _] => rewrite H
          | H : ?c = false |- context [if negb ?c then _ else _] => rewrite H
          | H : ?c = true |- context [if ?c then _ else _] => rewrite H
          | H : ?c = false |- context [if ?c then _ else _] => rewrite H
          | |- context [if negb ?c then _ else _] => destruct c eqn:?
          | |- context [if ?c then _ else _] => destruct c eqn:?
          | |- context [invoke ?l ?c ?h ?b] =>
              let r := fresh "r" in
              let b' := fresh "b" in
              destruct (invoke l c h b) as [[r | r] b'] eqn:?
          end).

Ltac py_finish :=
  py_cases; simpl; repeat split; eauto; try congruence;
  try (let Hno := fresh in intros Hno; exfalso; eapply Hno; reflexivity).


Lemma check_function_raise_any_world {B} (mpi_lib : MpiLib B)
    (factory : Tensor -> string) (tensor : Tensor) (e : Exception)
    (w w' : World B) :
  _check_function mpi_lib factory tensor w = (Raise e, w) ->
  _check_function mpi_lib factory tensor w' = (Raise e, w').
Proof.
  unfold _check_function, raise, ret.
  destruct (hasattr mpi_lib (factory tensor)); simpl;
    [destruct (is_contiguous tensor); simpl |];
    intros H; inversion H; reflexivity.
Qed.

Lemma int32_tensor_keeps_table {B} (l : list Z) (w : World B) :
  _handle_map (snd (int32_tensor l w)) = _handle_map w
  /\ submitted (snd (int32_tensor l w)) = submitted w
  /\ ((exists t, fst (int32_tensor l w) = Return t)
      \/ exists m, fst (int32_tensor l w) = Raise (RuntimeError m)).
Proof.
  unfold int32_tensor, alloc, raise.
  destruct (forallb _ l); simpl; repeat split; eauto.
Qed.




(** C10: the local validation of a grouped allreduce looks at the first
    tensor only.  The exception the dispatch raises on its own is the same
    for any two lists with the same first tensor; and when the first
    tensor is supported and contiguous no validation error is raised,
    whatever the later tensors are: for an op other than [Adasum] the
    whole list reaches the backend. *)
Theorem grouped_validates_first_only {B} (mpi_lib : MpiLib B)
    (hvd : HorovodBasics) (tensor : Tensor) (rest rest' : list Tensor)
    (outputs outputs' : list Tensor) (name : option string) (op : ReduceOp)
    (prescale_factor postscale_factor : Q) (w : World B) :
  let r := _grouped_allreduce_async mpi_lib hvd (tensor :: rest) outputs
             name op prescale_factor postscale_factor w in
  let r' := _grouped_allreduce_async mpi_lib hvd (tensor :: rest') outputs'
              name op prescale_factor postscale_factor w in
  local_failure (fst r) = local_failure (fst r')
  /\ (hasattr mpi_lib (_grouped_allreduce_function_factory tensor) = true ->
      is_contiguous tensor = true ->
      (forall m, fst r <> Raise (ValueError m))
      /\ (op <> Adasum ->
          exists op' divisor,
            submitted (snd r)
            = submitted w ++
                [GroupedAllreduceCall
                   (_grouped_allreduce_function_factory tensor)
                   (tensor :: rest) outputs divisor (encode_name name) op'
                   prescale_factor postscale_factor])).
Proof.
  intros r r'. subst r r'. split.
  - destruct op; py_unfold; py_finish.
  - intros Hs Hc. split.
    + intros m. destruct op; py_unfold; py_finish.
    + intros Hop. destruct op; [| | congruence]; py_unfold; py_finish.
Qed.

Lemma grouped_validates_first_only_witness :
  (forall m,
     fst (_grouped_allreduce_async ex_lib_no_half ex_hvd
            [ex_tensor; ex_strided; ex_half] [] None Sum 1 1 ex_world)
     <> Raise (ValueError m))
  /\ exists op' divisor,
       submitted
         (snd (_grouped_allreduce_async ex_lib_no_half ex_hvd
                 [ex_tensor; ex_strided; ex_half] [] None Sum 1 1 ex_world))
       = [GroupedAllreduceCall
            "horovod_torch_grouped_allreduce_async_torch_FloatTensor"
            [ex_tensor; ex_strided; ex_half] [] divisor "" op' 1 1].
Proof.
  assert (Hne : Sum <> Adasum) by discriminate.
  pose proof (grouped_validates_first_only ex_lib_no_half ex_hvd ex_tensor
                [ex_strided; ex_half] [] [] [] None Sum 1 1 ex_world)
    as [_ H].
  destruct (H eq_refl eq_refl) as [Hv Hsub].
  split; [exact Hv | exact (Hsub Hne)].
Defined.

(** ** The handle table *)

(** C7, as the code has it: [synchronize] on a handle without an entry
    returns [None] and changes nothing, also right after the entry was
    consumed; on a handle with an entry it waits for the backend, and when
    that reports completion it removes the entry and returns the stored
    output; when the backend reports a failure it raises
    [HorovodInternalError] and the entry stays in the table. *)
Theorem synchronize_spec {B} (mpi_lib : MpiLib B) (handle : Z)
    (w : World B) :
  (_handle_map w !! handle = None ->
   synchronize mpi_lib handle w = (Return VNone, w))
  /\ (forall entry h b,
        _handle_map w !! handle = Some entry ->
        horovod_torch_wait_and_clear mpi_lib handle (heap w) (engine w)
        = (None, h, b) ->
        let w' := mkWorld (delete handle (_handle_map w)) h (next_tid w) b
                    (warnings w) (submitted w) in
        synchronize mpi_lib handle w = (Return (entry_last entry), w')
        /\ synchronize mpi_lib handle w' = (Return VNone, w'))
  /\ (forall entry msg h b,
        _handle_map w !! handle = Some entry ->
        horovod_torch_wait_and_clear mpi_lib handle (heap w) (engine w)
        = (Some msg, h, b) ->
        synchronize mpi_lib handle w
        = (Raise (HorovodInternalError msg),
           mkWorld (_handle_map w) h (next_tid w) b (warnings w)
             (submitted w))).
Proof.
  assert (Hnone : forall w0 : World B,
             _handle_map w0 !! handle = None ->
             synchronize mpi_lib handle w0 = (Return VNone, w0)).
  { intros w0 H0. unfold synchronize, handle_map_contains, bind, ret.
    rewrite H0. rewrite bool_decide_eq_false_2; [reflexivity |].
    intros [x Hx]. discriminate Hx. }
  split; [apply Hnone | split].
  - intros entry h b He Hw w'. split.
    + unfold synchronize, handle_map_contains, except_RuntimeError,
        wait_and_clear, handle_map_pop, bind, ret.
      rewrite He. rewrite bool_decide_eq_true_2 by eauto. simpl.
      rewrite Hw. simpl. rewrite He. reflexivity.
    + apply Hnone. subst w'. simpl. apply lookup_delete_eq.
  - intros entry msg h b He Hw.
    unfold synchronize, handle_map_contains, except_RuntimeError,
      wait_and_clear, handle_map_pop, bind, ret.
    rewrite He. rewrite bool_decide_eq_true_2 by eauto. simpl.
    rewrite Hw. reflexivity.
Qed.

Lemma synchronize_spec_witness :
  synchronize ex_lib_same_handle 7 ex_world_pending
  = (Return (VTensor ex_output), mkWorld (delete 7 {[ 7 := ex_entry ]}) ∅ 2 tt [] [])
  /\ synchronize ex_lib_same_handle 7 ex_world_unit
     = (Return VNone, ex_world_unit).
Proof.
  split.
  - apply (proj1 (proj2 (synchronize_spec ex_lib_same_handle 7
                           ex_world_pending))
             ex_entry ∅ tt).
    + reflexivity.
    + reflexivity.
  - apply (proj1 (synchronize_spec ex_lib_same_handle 7 ex_world_unit)).
    reflexivity.
Defined.

(** C7 fails as stated for a handle with an entry whose operation the
    backend reports as failed: [synchronize] raises and the entry is
    still in the table. *)
Lemma synchronize_counterexample :
  _handle_map ex_world_pending !! 7 = Some ex_entry
  /\ fst (synchronize ex_lib_failing 7 ex_world_pending)
     = Raise (HorovodInternalError "allreduce failed")
  /\ _handle_map (snd (synchronize ex_lib_failing 7 ex_world_pending)) !! 7
     = Some ex_entry.
Proof. repeat split; vm_compute; reflexivity. Qed.

(** C8, as the code has it: registering never fails.  A dispatch that
    gets a handle from the backend stores its operands under it whether or
    not the handle is in the table already; an entry that was there is
    replaced, silently, and the table keeps the same handles. *)
Theorem registration_overwrites {B} (mpi_lib : MpiLib B)
    (hvd : HorovodBasics) (tensor output : Tensor) (name : option string)
    (op : ReduceOp) (prescale_factor postscale_factor : Q) (w : World B)
    (handle : Z) :
  let r := _allreduce_async mpi_lib hvd tensor output name op
             prescale_factor postscale_factor w in
  let entry := Pair (VTensor tensor) (VTensor output) in
  fst r = Return handle ->
  fst (handle_map_setitem handle entry w) = Return tt
  /\ _handle_map (snd r) = <[handle := entry]> (_handle_map w)
  /\ _handle_map (snd r) !! handle = Some entry
  /\ (forall old,
        _handle_map w !! handle = Some old ->
        dom (_handle_map (snd r)) = dom (_handle_map w)).
Proof.
  intros r entry Hr.
  assert (Hmap : _handle_map (snd r) = <[handle := entry]> (_handle_map w)).
  { subst r entry. revert Hr.
    destruct op; py_unfold; py_cases; simpl; intros Hr;
      try discriminate Hr; inversion Hr; subst; reflexivity. }
  split; [reflexivity | split; [exact Hmap | split]].
  - rewrite Hmap. apply lookup_insert_eq.
  - intros old Hold. rewrite Hmap. rewrite dom_insert_L.
    apply subseteq_union_1_L. apply singleton_subseteq_l.
    apply elem_of_dom. eauto.
Qed.

Lemma registration_overwrites_witness :
  _handle_map
    (snd (_allreduce_async ex_lib_same_handle ex_hvd ex_half ex_output None
            Sum 1 1 ex_world_pending)) !! 7
  = Some (Pair (VTensor ex_half) (VTensor ex_output)).
Proof.
  apply (registration_overwrites ex_lib_same_handle ex_hvd ex_half ex_output
           None Sum 1 1 ex_world_pending 7).
  reflexivity.
Defined.

(** C8 fails as stated: with handle 7 in the table, a dispatch to which
    the backend hands 7 again returns normally, and the table holds the
    new operands under 7 in place of the old ones. *)
Lemma registration_counterexample :
  _handle_map ex_world_pending !! 7
  = Some (Pair (VTensor ex_tensor) (VTensor ex_output))
  /\ fst (_allreduce_async ex_lib_same_handle ex_hvd ex_half ex_output None
            Sum 1 1 ex_world_pending)
     = Return 7
  /\ _handle_map
       (snd (_allreduce_async ex_lib_same_handle ex_hvd ex_half ex_output
               None Sum 1 1 ex_world_pending)) !! 7
     = Some (Pair (VTensor ex_half) (VTensor ex_output))
  /\ fst (handle_map_setitem 7 (Pair (VTensor ex_half) (VTensor ex_output))
            ex_world_pending)
     = Return tt.
Proof. repeat split; vm_compute; reflexivity. Qed.

(** ** Tensors on the cluster *)

Lemma shape_add_data (a b : list (list Elem)) :
  shape b = shape a -> shape (add_data a b) = shape a.
Proof.
  unfold shape, add_data. revert b.
  induction a as [| x a IH]; intros [| y b] H; simpl in *;
    try discriminate; [reflexivity |].
  injection H as Hxy Hab. f_equal.
  - rewrite length_zip_with. lia.
  - apply IH. exact Hab.
Qed.

Lemma shape_foldl_add_data (d : list (list Elem)) (ds : list (list (list Elem))) :
  forallb (fun d' => bool_decide (shape d' = shape d)) ds = true ->
  shape (foldl add_data d ds) = shape d.
Proof.
  revert d. induction ds as [| d' ds IH]; intros d H; simpl in *.
  - reflexivity.
  - apply andb_true_iff in H as [Hd' Hds].
    apply bool_decide_eq_true in Hd'.
    rewrite IH.
    + apply shape_add_data. exact Hd'.
    + rewrite shape_add_data by exact Hd'. exact Hds.
Qed.

Lemma shape_reduce_sum (ds : list (list (list Elem))) (x : list (list Elem)) :
  all_same_shape ds = true -> x ∈ ds -> shape (reduce_sum ds) = shape x.
Proof.
  destruct ds as [| d ds]; intros H Hx.
  - inversion Hx.
  - simpl in *. rewrite shape_foldl_add_data by exact H.
    apply elem_of_cons in Hx as [-> | Hx]; [reflexivity |].
    rewrite forallb_forall in H. symmetry.
    eapply bool_decide_eq_true_1. apply H. apply list_elem_of_In. exact Hx.
Qed.

Lemma length_reduce_sum (ds : list (list (list Elem))) (x : list (list Elem)) :
  all_same_shape ds = true -> x ∈ ds ->
  length (reduce_sum ds) = length x.
Proof.
  intros H Hx. pose proof (shape_reduce_sum ds x H Hx) as Hs.
  unfold shape in Hs. apply (f_equal length) in Hs.
  rewrite !length_map in Hs. exact Hs.
Qed.

Lemma concat_singletons {A} (l : list A) :
  concat (map (fun x => [x]) l) = l.
Proof. induction l as [| x l IH]; simpl; [reflexivity | now rewrite IH]. Qed.

Lemma concat_map_singleton {A C} (f : A -> C) (l : list A) :
  concat (map (fun x => [f x]) l) = map f l.
Proof. induction l as [| x l IH]; simpl; [reflexivity | now rewrite IH]. Qed.

Lemma sum_of_nums (l : list Z) :
  foldr elem_add (Num 0) (map Num l) = Num (foldr Z.add 0 l).
Proof. induction l as [| x l IH]; simpl; [reflexivity | now rewrite IH]. Qed.

Lemma offset_of_nonneg (r : list nat) (k : nat) : 0 <= offset_of r k.
Proof.
  unfold offset_of. generalize (take k r). intros l.
  induction l as [| x l IH]; simpl; lia.
Qed.

Lemma offset_of_bound (r : list nat) (k rk : nat) :
  r !! k = Some rk ->
  offset_of r k + Z.of_nat rk <= foldr Z.add 0 (map Z.of_nat r).
Proof.
  unfold offset_of. revert k. induction r as [| x r IH]; intros k H.
  - rewrite lookup_nil in H. discriminate.
  - destruct k as [| k]; simpl in *.
    + inversion H; subst.
      assert (0 <= foldr Z.add 0 (map Z.of_nat r)).
      { clear. induction r; simpl; lia. }
      lia.
    + specialize (IH k H). lia.
Qed.

(** Slicing a concatenation of blocks at the offset of block [k], with the
    length of block [k], gives block [k]. *)
Lemma narrow_concat_block {A} (blocks : list (list A)) (k : nat)
    (b : list A) :
  blocks !! k = Some b ->
  take (length b)
    (drop (Z.to_nat (offset_of (map length blocks) k)) (concat blocks))
  = b.
Proof.
  unfold offset_of. revert k.
  induction blocks as [| x blocks IH]; intros k H.
  - rewrite lookup_nil in H. discriminate.
  - destruct k as [| k]; simpl in *.
    + inversion H; subst. change (Z.to_nat 0) with 0%nat.
      rewrite drop_0. apply take_app_length.
    + rewrite Z2Nat.inj_add.
      * rewrite Nat2Z.id. rewrite drop_app_add'; [| reflexivity].
        apply IH. exact H.
      * lia.
      * apply (offset_of_nonneg (map length blocks) k).
Qed.

(** Lookups and updates of the handle table, the storage and the table of
    operations in flight. *)
Ltac map_simpl :=
  repeat first
    [ rewrite lookup_insert_eq
    | rewrite lookup_insert_ne by lia
    | rewrite delete_insert_eq
    | rewrite insert_insert_eq
    | progress simpl ].

(** [allreduce(g, op=Sum)] on the cluster: the result is a fresh tensor
    holding the elementwise sum of the ranks' tensors; the handle is
    registered and consumed. *)
Lemma allreduce_sum_on_cluster (c : Cluster) (hvd : HorovodBasics)
    (g : Tensor) (w : World ClusterEngine) :
  built c (_allreduce_function_factory g) = true ->
  is_contiguous g = true ->
  (tid g < next_tid w)%N ->
  all_same_shape (contributions c (issued (engine w)) (data_of w g)) = true ->
  allreduce (cluster_mpi_lib c) hvd g None Compression_none Sum 1 1 w
  = (Return (VTensor (fresh_like w g)),
     mkWorld (delete (next_handle (engine w)) (_handle_map w))
       (<[next_tid w :=
            reduce_sum (contributions c (issued (engine w)) (data_of w g))]>
          (heap w))
       (N.succ (next_tid w))
       (mkEngine (next_handle (engine w) + 1)
          (delete (next_handle (engine w)) (pending (engine w)))
          (S (issued (engine w))))
       (warnings w)
       (submitted w ++
          [AllreduceCall (_allreduce_function_factory g) g (fresh_like w g)
             1 "" Sum 1 1])).
Proof.
  intros Hb Hc Hfresh Hshape.
  unfold allreduce, HorovodAllreduce_forward, allreduce_async,
    tensor_new_like, alloc, synchronize, handle_map_contains,
    wait_and_clear, handle_map_pop, Compression_none, fresh_like.
  py_unfold. simpl. rewrite Hb, Hc. simpl.
  rewrite lookup_insert_eq.
  rewrite bool_decide_eq_true_2 by eauto. simpl.
  unfold cluster_wait_and_clear. simpl.
  rewrite lookup_insert_eq. simpl.
  rewrite lookup_insert_ne by lia.
  fold (data_of w g). rewrite Hshape. simpl.
  rewrite lookup_insert_eq. simpl.
  rewrite !delete_insert_eq, insert_insert_eq.
  reflexivity.
Qed.

(** [allgather(t)] on the cluster: the result is a fresh tensor holding
    the ranks' tensors one after the other, in rank order. *)
Lemma allgather_on_cluster (c : Cluster) (t : Tensor)
    (w : World ClusterEngine) :
  built c (_allgather_function_factory t) = true ->
  is_contiguous t = true ->
  (tid t < next_tid w)%N ->
  allgather (cluster_mpi_lib c) t None w
  = (Return (VTensor (fresh_like w t)),
     mkWorld (delete (next_handle (engine w)) (_handle_map w))
       (<[next_tid w :=
            concat (contributions c (issued (engine w)) (data_of w t))]>
          (heap w))
       (N.succ (next_tid w))
       (mkEngine (next_handle (engine w) + 1)
          (delete (next_handle (engine w)) (pending (engine w)))
          (S (issued (engine w))))
       (warnings w)
       (submitted w ++
          [AllgatherCall (_allgather_function_factory t) t (fresh_like w t)
             ""])).
Proof.
  intros Hb Hc Hfresh.
  unfold allgather, HorovodAllgather_forward, allgather_async, shape0,
    tensor_new_empty, alloc, synchronize, handle_map_contains,
    wait_and_clear, handle_map_pop, fresh_like.
  py_unfold. simpl. rewrite Hb, Hc. simpl.
  rewrite lookup_insert_eq.
  rewrite bool_decide_eq_true_2 by eauto. simpl.
  unfold cluster_wait_and_clear. map_simpl.
  fold (data_of w t). reflexivity.
Qed.

(** ** Steps of the gradient rules *)

Lemma bind_return {B A C} (m : M B A) (k : A -> M B C) (a : A)
    (w w' : World B) :
  m w = (Return a, w') -> bind m k w = k a w'.
Proof. intros H. unfold bind. rewrite H. reflexivity. Qed.

Lemma creates_alloc {B} (ty dev : string) (contiguous : bool)
    (d : list (list Elem)) (w : World B) :
  creates w (snd (alloc ty dev contiguous d w))
    (mkTensor (next_tid w) ty dev contiguous) d.
Proof.
  unfold creates, alloc, data_of. simpl. repeat split.
  - rewrite lookup_insert_eq. reflexivity.
  - intros t0 Ht0. rewrite lookup_insert_ne by lia. reflexivity.
Qed.

Lemma allreduce_sum_creates (c : Cluster) (hvd : HorovodBasics)
    (g : Tensor) (w : World ClusterEngine) :
  built c (_allreduce_function_factory g) = true ->
  is_contiguous g = true ->
  (tid g < next_tid w)%N ->
  all_same_shape (contributions c (issued (engine w)) (data_of w g)) = true ->
  exists t w',
    allreduce (cluster_mpi_lib c) hvd g None Compression_none Sum 1 1 w
    = (Return (VTensor t), w')
    /\ creates w w' t
         (reduce_sum (contributions c (issued (engine w)) (data_of w g)))
    /\ type t = type g /\ device_type t = device_type g
    /\ issued (engine w') = S (issued (engine w)).
Proof.
  intros Hb Hc Hfresh Hshape. eexists. eexists. split.
  - apply allreduce_sum_on_cluster; assumption.
  - unfold creates, data_of, fresh_like. simpl. repeat split.
    + rewrite lookup_insert_eq. reflexivity.
    + intros t0 Ht0. rewrite lookup_insert_ne by lia. reflexivity.
Qed.

Lemma allgather_creates (c : Cluster) (t : Tensor)
    (w : World ClusterEngine) :
  built c (_allgather_function_factory t) = true ->
  is_contiguous t = true ->
  (tid t < next_tid w)%N ->
  exists t' w',
    allgather (cluster_mpi_lib c) t None w = (Return (VTensor t'), w')
    /\ creates w w' t'
         (concat (contributions c (issued (engine w)) (data_of w t)))
    /\ issued (engine w') = S (issued (engine w)).
Proof.
  intros Hb Hc Hfresh. eexists. eexists. split.
  - apply allgather_on_cluster; assumption.
  - unfold creates, data_of, fresh_like. simpl. repeat split.
    + rewrite lookup_insert_eq. reflexivity.
    + intros t0 Ht0. rewrite lookup_insert_ne by lia. reflexivity.
Qed.

Lemma int32_tensor_creates {B} (l : list Z) (w : World B) :
  Forall (fun x => - 2 ^ 31 <= x < 2 ^ 31) l ->
  exists t w',
    int32_tensor l w = (Return t, w')
    /\ creates w w' t (map (fun x => [Num x]) l)
    /\ type t = "torch.IntTensor" /\ is_contiguous t = true
    /\ engine w' = engine w.
Proof.
  intros Hl. unfold int32_tensor.
  assert (Hin : forallb (fun x => (- 2 ^ 31 <=? x) && (x <? 2 ^ 31)) l
                = true).
  { apply forallb_forall. intros x Hx.
    rewrite Forall_forall in Hl. apply list_elem_of_In in Hx.
    specialize (Hl x Hx). apply andb_true_iff. split.
    - apply Z.leb_le. lia.
    - apply Z.ltb_lt. lia. }
  rewrite Hin. eexists. eexists. split; [reflexivity |].
  split; [apply creates_alloc | repeat split].
Qed.

Lemma view1_creates {B} (t : Tensor) (n : Z) (w : World B) :
  Z.of_nat (length (concat (data_of w t))) = n ->
  exists t' w',
    view1 (VTensor t) n w = (Return (VTensor t'), w')
    /\ creates w w' t' (map (fun x => [x]) (concat (data_of w t)))
    /\ engine w' = engine w.
Proof.
  intros Hn. unfold view1. apply Z.eqb_eq in Hn. rewrite Hn.
  eexists. eexists. split; [reflexivity |].
  split; [apply creates_alloc | reflexivity].
Qed.

Lemma narrow0_creates {B} (t : Tensor) (start len : Z) (w : World B) :
  0 <= start -> 0 <= len ->
  start + len <= Z.of_nat (length (data_of w t)) ->
  exists t' w',
    narrow0 (VTensor t) start len w = (Return (VTensor t'), w')
    /\ creates w w' t'
         (take (Z.to_nat len) (drop (Z.to_nat start) (data_of w t)))
    /\ engine w' = engine w.
Proof.
  intros Hs Hl Hb. unfold narrow0.
  assert (Hok : (0 <=? start) && (0 <=? len)
                && (start + len <=? Z.of_nat (length (data_of w t)))
                = true).
  { rewrite !andb_true_iff. repeat split; apply Z.leb_le; assumption. }
  rewrite Hok. eexists. eexists. split; [reflexivity |].
  split; [apply creates_alloc | reflexivity].
Qed.

(** ** Gradient rules *)

Lemma mul_zero_elem (x : Elem) :
  elem_mul x (Num 0) = if is_finite x then Num 0 else NaN.
Proof.
  destruct x as [z | | |]; simpl; [| reflexivity | reflexivity | reflexivity].
  f_equal. apply Z.mul_0_r.
Qed.

Lemma times_zero_finite (d : list (list Elem)) :
  Forall (Forall (fun x => is_finite x = true)) d ->
  times_zero d = zeros_like d.
Proof.
  unfold times_zero, zeros_like.
  induction 1 as [| row d Hrow Hd IH]; simpl; [reflexivity |].
  f_equal; [| exact IH]. clear IH Hd.
  induction Hrow as [| x row Hx Hrow IH]; simpl; [reflexivity |].
  f_equal; [| exact IH]. rewrite mul_zero_elem, Hx. reflexivity.
Qed.

Lemma times_zero_elements (d : list (list Elem)) :
  Forall (Forall (fun x => x = Num 0 \/ x = NaN)) (times_zero d).
Proof.
  unfold times_zero. apply Forall_forall. intros row Hrow.
  apply list_elem_of_fmap in Hrow as (row' & -> & _).
  apply Forall_forall. intros x Hx.
  apply list_elem_of_fmap in Hx as (x' & -> & _).
  rewrite mul_zero_elem. destruct (is_finite x'); [left | right]; reflexivity.
Qed.

Lemma shape_times_zero (d : list (list Elem)) :
  shape (times_zero d) = shape d.
Proof.
  unfold shape, times_zero. rewrite map_map. apply map_ext.
  intros row. apply length_map.
Qed.

(** C6, as the code has it: for any root rank, the backward rule of
    broadcast, run on a rank of the cluster, returns the elementwise sum
    of the ranks' incoming gradients when the rank is the root; when it is
    not, it returns that sum multiplied by zero element by element, which
    is zero where the sum is finite and [NaN] where the sum is infinite or
    [NaN].  The result is entirely zero when the whole sum is finite. *)
Theorem broadcast_backward_spec (c : Cluster) (hvd : HorovodBasics)
    (ctx : BroadcastCtx) (grad_output : Tensor) (w : World ClusterEngine) :
  built c (_allreduce_function_factory grad_output) = true ->
  is_contiguous grad_output = true ->
  (tid grad_output < next_tid w)%N ->
  rank hvd = Z.of_nat (me c) ->
  let grads :=
    contributions c (issued (engine w)) (data_of w grad_output) in
  all_same_shape grads = true ->
  let r := HorovodBroadcast_backward (cluster_mpi_lib c) hvd ctx
             grad_output w in
  exists t,
    fst r = Return (VTensor t)
    /\ (rank hvd = ctx_root_rank ctx ->
        data_of (snd r) t = reduce_sum grads)
    /\ (rank hvd <> ctx_root_rank ctx ->
        data_of (snd r) t = times_zero (reduce_sum grads)
        /\ shape (data_of (snd r) t) = shape (reduce_sum grads)
        /\ Forall (Forall (fun x => x = Num 0 \/ x = NaN))
             (data_of (snd r) t)
        /\ (forall x,
              elem_mul x (Num 0) = if is_finite x then Num 0 else NaN)
        /\ (Forall (Forall (fun x => is_finite x = true))
              (reduce_sum grads) ->
            data_of (snd r) t = zeros_like (reduce_sum grads)
            /\ Forall (Forall (eq (Num 0))) (data_of (snd r) t))).
Proof.
  intros Hb Hc Hfresh Hrank grads Hshape r.
  exists (fresh_like w grad_output).
  assert (Hrun :
    r = (if rank hvd =? ctx_root_rank ctx then ret else
           fun v => imul v 0)
          (VTensor (fresh_like w grad_output))
          (snd (allreduce (cluster_mpi_lib c) hvd grad_output None
                  Compression_none Sum 1 1 w))).
  { subst r. unfold HorovodBroadcast_backward, bind.
    rewrite allreduce_sum_on_cluster by assumption.
    destruct (rank hvd =? ctx_root_rank ctx); reflexivity. }
  rewrite Hrun. rewrite allreduce_sum_on_cluster by assumption.
  fold grads.
  destruct (rank hvd =? ctx_root_rank ctx) eqn:E.
  - apply Z.eqb_eq in E. unfold ret, data_of. map_simpl.
    split; [reflexivity | split]; [reflexivity | congruence].
  - apply Z.eqb_neq in E. unfold imul, data_of. map_simpl.
    split; [reflexivity | split]; [congruence |].
    intros _. fold (times_zero (reduce_sum grads)).
    split; [reflexivity |].
    split; [apply shape_times_zero |].
    split; [apply times_zero_elements |].
    split; [apply mul_zero_elem |].
    intros Hfin. rewrite (times_zero_finite _ Hfin).
    split; [reflexivity |].
    unfold zeros_like. apply Forall_forall. intros row Hrow.
    apply list_elem_of_fmap in Hrow as (row' & -> & _).
    apply Forall_forall. intros x Hx.
    apply list_elem_of_fmap in Hx as (x' & -> & _). reflexivity.
Qed.

Lemma broadcast_backward_spec_witness :
  (exists t,
     fst (HorovodBroadcast_backward ex_lib ex_hvd (mkBroadcastCtx 2)
            ex_tensor ex_world) = Return (VTensor t)
     /\ data_of
          (snd (HorovodBroadcast_backward ex_lib ex_hvd (mkBroadcastCtx 2)
                  ex_tensor ex_world)) t
        = map (fun i => [Num (1011 + Z.of_nat i); Num 1021]) (seq 0 10))
  /\ exists t,
       fst (HorovodBroadcast_backward ex_lib ex_hvd (mkBroadcastCtx 1)
              ex_tensor ex_world) = Return (VTensor t)
       /\ data_of
            (snd (HorovodBroadcast_backward ex_lib ex_hvd (mkBroadcastCtx 1)
                    ex_tensor ex_world)) t
          = replicate 10 [Num 0; Num 0].
Proof.
  assert (Hlt : (tid ex_tensor < next_tid ex_world)%N) by reflexivity.
  split.
  - destruct (broadcast_backward_spec ex_cluster ex_hvd (mkBroadcastCtx 2)
                ex_tensor ex_world eq_refl eq_refl Hlt eq_refl eq_refl)
      as (t & Ht & Hroot & _).
    exists t. split; [exact Ht | exact (Hroot eq_refl)].
  - assert (Hne : rank ex_hvd <> ctx_root_rank (mkBroadcastCtx 1))
      by discriminate.
    destruct (broadcast_backward_spec ex_cluster ex_hvd (mkBroadcastCtx 1)
                ex_tensor ex_world eq_refl eq_refl Hlt eq_refl eq_refl)
      as (t & Ht & _ & Hother).
    exists t. split; [exact Ht | exact (proj1 (Hother Hne))].
Defined.

(** C6 fails as stated: on a cluster where rank 1 contributes an infinite
    gradient, the summed gradient is infinite, and the backward rule on
    rank 2, which is not the root, returns [NaN], not zero. *)
Lemma broadcast_backward_counterexample :
  rank ex_hvd <> ctx_root_rank (mkBroadcastCtx 1)
  /\ reduce_sum
       (contributions ex_cluster_inf (issued (engine ex_world_inf))
          (data_of ex_world_inf ex_tensor))
     = [[PosInf]]
  /\ fst (HorovodBroadcast_backward (cluster_mpi_lib ex_cluster_inf) ex_hvd
            (mkBroadcastCtx 1) ex_tensor ex_world_inf)
     = Return (VTensor (mkTensor 1 "torch.FloatTensor" "cpu" true))
  /\ data_of
       (snd (HorovodBroadcast_backward (cluster_mpi_lib ex_cluster_inf)
               ex_hvd (mkBroadcastCtx 1) ex_tensor ex_world_inf))
       (mkTensor 1 "torch.FloatTensor" "cpu" true)
     = [[NaN]].
Proof.
  split; [discriminate |]. repeat split; vm_compute; reflexivity.
Qed.

Lemma contributions_own_extent (c : Cluster) (n : nat) (r : list nat)
    (rk : nat) :
  peers c n = map (fun x => [[Num (Z.of_nat x)]]) r ->
  r !! me c = Some rk ->
  concat (contributions c n [[Num (Z.of_nat rk)]])
  = map (fun x => [Num (Z.of_nat x)]) r.
Proof.
  intros Hp Hrk. unfold contributions. rewrite Hp.
  rewrite list_insert_id.
  - clear. induction r as [| x r IH]; simpl; [reflexivity | now rewrite IH].
  - rewrite list_lookup_fmap, Hrk. reflexivity.
Qed.

Lemma own_in_contributions (c : Cluster) (n : nat) (own : list (list Elem)) :
  (me c < length (peers c n))%nat -> own ∈ contributions c n own.
Proof.
  intros H. unfold contributions.
  apply (list_elem_of_lookup_2 _ (me c)).
  apply list_lookup_insert_eq. exact H.
Qed.

(** C5: on a cluster of N ranks where rank i contributed [r_i] rows to the
    gather, the backward rule of allgather run on rank k sum-reduces the
    incoming gradients and returns the [r_k] rows of the sum that start
    at row [r_0 + ... + r_(k-1)]: the rows of rank k's own block, when the
    sum is read as the blocks of the ranks one after the other. *)
Theorem allgather_backward_spec (c : Cluster) (hvd : HorovodBasics)
    (ctx : AllgatherCtx) (grad_output : Tensor) (w : World ClusterEngine)
    (r : list nat) (rk : nat) :
  built c (_allreduce_function_factory grad_output) = true ->
  built c "horovod_torch_allgather_async_torch_IntTensor" = true ->
  is_contiguous grad_output = true ->
  (tid grad_output < next_tid w)%N ->
  size hvd = Z.of_nat (length r) ->
  rank hvd = Z.of_nat (me c) ->
  r !! me c = Some rk ->
  ctx_dim ctx = Z.of_nat rk ->
  Z.of_nat rk < 2 ^ 31 ->
  peers c (S (issued (engine w)))
  = map (fun x => [[Num (Z.of_nat x)]]) r ->
  length (peers c (issued (engine w))) = length r ->
  Z.of_nat (length (data_of w grad_output))
  = foldr Z.add 0 (map Z.of_nat r) ->
  let grads :=
    contributions c (issued (engine w)) (data_of w grad_output) in
  all_same_shape grads = true ->
  let run := HorovodAllgather_backward (cluster_mpi_lib c) hvd ctx
               grad_output w in
  exists t,
    fst run = Return (VTensor t)
    /\ data_of (snd run) t
       = take rk (drop (Z.to_nat (offset_of r (me c))) (reduce_sum grads))
    /\ length (data_of (snd run) t) = rk
    /\ (forall blocks,
          reduce_sum grads = concat blocks ->
          map length blocks = r ->
          blocks !! me c = Some (data_of (snd run) t)).
Proof.
  intros Hb Hbi Hc Hfresh Hsize Hrank Hrk Hdim H31 Hpeers Hlen Hrows grads
    Hshape run.
  pose proof (lookup_lt_Some _ _ _ Hrk) as Hme.
  assert (Hown : length (reduce_sum grads)
                 = length (data_of w grad_output)).
  { apply length_reduce_sum; [exact Hshape |].
    apply own_in_contributions. lia. }
  pose proof (offset_of_nonneg r (me c)) as Hoff0.
  pose proof (offset_of_bound r (me c) rk Hrk) as Hbound.
  subst run. unfold HorovodAllgather_backward.
  destruct (allreduce_sum_creates c hvd grad_output w Hb Hc Hfresh Hshape)
    as (t1 & w1 & E1 & (Ht1 & Hn1 & Hd1 & Hk1) & _ & _ & Hi1).
  fold grads in Hd1.
  rewrite (bind_return _ _ _ _ _ E1).
  destruct (int32_tensor_creates [ctx_dim ctx] w1)
    as (t2 & w2 & E2 & (Ht2 & Hn2 & Hd2 & Hk2) & Hty2 & Hc2 & He2).
  { constructor; [| constructor]. rewrite Hdim. lia. }
  rewrite (bind_return _ _ _ _ _ E2).
  destruct (allgather_creates c t2 w2)
    as (t3 & w3 & E3 & (Ht3 & Hn3 & Hd3 & Hk3) & Hi3).
  { unfold _allgather_function_factory. rewrite Hty2. exact Hbi. }
  { exact Hc2. }
  { lia. }
  rewrite (bind_return _ _ _ _ _ E3).
  simpl in Hd2. rewrite Hd2, He2, Hi1, Hdim in Hd3.
  rewrite (contributions_own_extent c _ r rk Hpeers Hrk) in Hd3.
  destruct (view1_creates t3 (size hvd) w3)
    as (t4 & w4 & E4 & (Ht4 & Hn4 & Hd4 & Hk4) & He4).
  { rewrite Hd3, concat_map_singleton, length_map. symmetry. exact Hsize. }
  rewrite (bind_return _ _ _ _ _ E4).
  rewrite Hd3, concat_map_singleton in Hd4.
  assert (Hoff : exists w5 offset,
             (if negb (rank hvd =? 0)
              then bind (narrow0 (VTensor t4) 0 (rank hvd))
                     (fun lower => sum_item lower)
              else ret 0) w4 = (Return offset, w5)
             /\ offset = offset_of r (me c)
             /\ (next_tid w4 <= next_tid w5)%N
             /\ forall t0, (tid t0 < next_tid w4)%N ->
                           data_of w5 t0 = data_of w4 t0).
  { destruct (rank hvd =? 0) eqn:E0; simpl.
    - apply Z.eqb_eq in E0. exists w4, 0. unfold ret.
      repeat split; [| lia].
      assert (me c = 0%nat) as -> by lia. reflexivity.
    - destruct (narrow0_creates t4 0 (rank hvd) w4)
        as (t5 & w5 & E5 & (Ht5 & Hn5 & Hd5 & Hk5) & He5).
      { lia. } { lia. }
      { rewrite Hd4, !length_map, Hrank. lia. }
      exists w5. eexists. rewrite (bind_return _ _ _ _ _ E5).
      assert (Hsum : foldr elem_add (Num 0) (concat (data_of w5 t5))
                     = Num (offset_of r (me c))).
      { rewrite Hd5, Hd4, Hrank, Nat2Z.id. change (Z.to_nat 0) with 0%nat.
        rewrite drop_0. unfold offset_of.
        rewrite <- !fmap_take. rewrite concat_singletons.
        rewrite <- (map_map Z.of_nat Num). apply sum_of_nums. }
      unfold sum_item. rewrite Hsum. split; [reflexivity |].
      split; [reflexivity | split; [lia | exact Hk5]]. }
  destruct Hoff as (w5 & offset & E5 & -> & Hn5 & Hk5).
  rewrite (bind_return _ _ _ _ _ E5).
  assert (Hg : data_of w5 t1 = reduce_sum grads).
  { rewrite Hk5 by lia. rewrite Hk4 by lia. rewrite Hk3 by lia.
    rewrite Hk2 by lia. exact Hd1. }
  destruct (narrow0_creates t1 (offset_of r (me c)) (ctx_dim ctx) w5)
    as (t6 & w6 & E6 & (Ht6 & Hn6 & Hd6 & Hk6) & He6).
  { exact Hoff0. } { lia. } { rewrite Hg, Hown, Hdim. lia. }
  rewrite E6. simpl. exists t6.
  rewrite Hg, Hdim, Nat2Z.id in Hd6.
  split; [reflexivity | split; [exact Hd6 | split]].
  - rewrite Hd6. rewrite length_take, length_drop. lia.
  - intros blocks Hcat Hlens. rewrite Hd6, Hcat. subst r.
    rewrite list_lookup_fmap in Hrk.
    destruct (blocks !! me c) as [b |] eqn:Hb'; [| discriminate].
    simpl in Hrk. inversion Hrk; subst rk.
    rewrite (narrow_concat_block blocks (me c) b Hb'). reflexivity.
Qed.

Lemma allgather_backward_spec_witness :
  exists t,
    fst (HorovodAllgather_backward ex_lib ex_hvd (mkAllgatherCtx 1)
           ex_tensor ex_world) = Return (VTensor t)
    /\ data_of
         (snd (HorovodAllgather_backward ex_lib ex_hvd (mkAllgatherCtx 1)
                 ex_tensor ex_world)) t
       = [[Num 1016; Num 1021]]
    /\ offset_of ex_rows 2 = 5.
Proof.
  assert (Hlt : (tid ex_tensor < next_tid ex_world)%N) by reflexivity.
  assert (H31 : Z.of_nat 1 < 2 ^ 31) by reflexivity.
  destruct (allgather_backward_spec ex_cluster ex_hvd (mkAllgatherCtx 1)
              ex_tensor ex_world ex_rows 1 eq_refl eq_refl eq_refl Hlt
              eq_refl eq_refl eq_refl eq_refl H31 eq_refl eq_refl eq_refl
              eq_refl)
    as (t & Ht & Hd & _).
  exists t. split; [exact Ht | split; [exact Hd | reflexivity]].
Defined.

(** ** Further properties of the dispatchers *)

Lemma app_one_neq {A} (l : list A) (x : A) : l <> l ++ [x].
Proof.
  intros H. apply (f_equal length) in H. rewrite length_app in H.
  simpl in H. lia.
Qed.

(** X1: an allreduce dispatch (single-tensor or grouped) requested with
    [Sum] takes the last branch of the divisor/op policy whatever the
    topology and the device: it warns about nothing, raises neither a
    capability error nor a division error, and hands a valid tensor to the
    backend with op [Sum] and divisor 1. *)
Theorem sum_policy {B} (mpi_lib : MpiLib B) (hvd : HorovodBasics)
    (tensor : Tensor) (rest : list Tensor) (output : Tensor)
    (outputs : list Tensor) (name : option string)
    (prescale_factor postscale_factor : Q) (w : World B) :
  let single :=
    _allreduce_async mpi_lib hvd tensor output name Sum
      prescale_factor postscale_factor w in
  let grouped :=
    _grouped_allreduce_async mpi_lib hvd (tensor :: rest) outputs name Sum
      prescale_factor postscale_factor w in
  (warnings (snd single) = warnings w
   /\ (forall m, fst single <> Raise (NotImplementedError m))
   /\ fst single <> Raise ZeroDivisionError
   /\ (hasattr mpi_lib (_allreduce_function_factory tensor) = true ->
       is_contiguous tensor = true ->
       submitted (snd single)
       = submitted w ++
           [AllreduceCall (_allreduce_function_factory tensor) tensor
              output 1 (encode_name name) Sum
              prescale_factor postscale_factor]))
  /\ (warnings (snd grouped) = warnings w
      /\ (forall m, fst grouped <> Raise (NotImplementedError m))
      /\ fst grouped <> Raise ZeroDivisionError
      /\ (hasattr mpi_lib (_grouped_allreduce_function_factory tensor)
          = true ->
          is_contiguous tensor = true ->
          submitted (snd grouped)
          = submitted w ++
              [GroupedAllreduceCall
                 (_grouped_allreduce_function_factory tensor)
                 (tensor :: rest) outputs 1 (encode_name name) Sum
                 prescale_factor postscale_factor])).
Proof.
  intros single grouped. subst single grouped.
  split; py_unfold; py_finish.
Qed.

Lemma sum_policy_witness :
  submitted
    (snd (_allreduce_async ex_lib ex_hvd_nccl6 ex_cuda ex_output None Sum
            1 1 ex_world))
  = [AllreduceCall "horovod_torch_allreduce_async_torch_cuda_FloatTensor"
       ex_cuda ex_output 1 "" Sum 1 1].
Proof.
  pose proof (sum_policy ex_lib ex_hvd_nccl6 ex_cuda [] ex_output [] None
                1 1 ex_world) as [(_ & _ & _ & H) _].
  exact (H eq_refl eq_refl).
Defined.

Lemma app_one_inj {A} (l : list A) (x y : A) : l ++ [x] = l ++ [y] -> x = y.
Proof. intros H. apply app_inv_head in H. congruence. Qed.

(** Every path of a dispatch: no call and an error of its own, or one call
    and the backend's answer. *)
Ltac py_outcome :=
  py_cases; simpl;
  (split; [| split]);
  try (let Hno := fresh in
       intros Hno; exfalso; exact (app_one_neq _ _ (eq_sym Hno)));
  try (intros _; split; [reflexivity | eexists; split; reflexivity]);
  try (let c := fresh "c" in
       let Hc := fresh "Hc" in
       intros c Hc; first
         [ exfalso; exact (app_one_neq _ _ Hc)
         | apply app_one_inj in Hc; subst c;
           match goal with H : invoke _ _ _ _ = _ |- _ => rewrite H end;
           repeat split; reflexivity ]);
  eauto.

(** X2: what a dispatch does after its local checks is decided by the one
    call it makes to the backend.  When no call was made the dispatch has
    raised an error of its own and the handle table is unchanged.  When a
    call was made and the backend raised a [RuntimeError], the dispatch
    raises [HorovodInternalError] with the same message and the handle
    table is unchanged; when the backend gave a handle, the dispatch
    returns that handle and the table holds the operands under it. *)
Theorem dispatch_outcome {B} (mpi_lib : MpiLib B) (hvd : HorovodBasics)
    (tensor output : Tensor) (tensors outputs : list Tensor)
    (root_rank : Z) (name : option string) (op : ReduceOp)
    (prescale_factor postscale_factor : Q) (w : World B) :
  let outcome (r : Result Z * World B) (entry : Entry) :=
    (submitted (snd r) = submitted w ->
     _handle_map (snd r) = _handle_map w
     /\ exists e, fst r = Raise e /\ local_failure (fst r) = Some e)
    /\ (forall c,
          submitted (snd r) = submitted w ++ [c] ->
          match invoke mpi_lib c (heap w) (engine w) with
          | (inl e, b) =>
              fst r = Raise (HorovodInternalError e)
              /\ _handle_map (snd r) = _handle_map w
              /\ engine (snd r) = b
          | (inr handle, b) =>
              fst r = Return handle
              /\ _handle_map (snd r) = <[handle := entry]> (_handle_map w)
              /\ engine (snd r) = b
          end)
    /\ (submitted (snd r) = submitted w
        \/ exists c, submitted (snd r) = submitted w ++ [c]) in
  outcome
    (_allreduce_async mpi_lib hvd tensor output name op
       prescale_factor postscale_factor w)
    (Pair (VTensor tensor) (VTensor output))
  /\ outcome
       (_grouped_allreduce_async mpi_lib hvd tensors outputs name op
          prescale_factor postscale_factor w)
       (Pair (VTuple tensors) (VTuple outputs))
  /\ outcome (_allgather_async mpi_lib tensor output name w)
       (Pair (VTensor tensor) (VTensor output))
  /\ outcome (_broadcast_async mpi_lib tensor output root_rank name w)
       (Pair (VTensor tensor) (VTensor output)).
Proof.
  intros outcome. subst outcome. cbv beta.
  split; [| split; [| split]].
  - destruct op; py_unfold; py_outcome.
  - destruct op; destruct tensors; py_unfold; py_outcome.
  - py_unfold; py_outcome.
  - py_unfold; py_outcome.
Qed.

Lemma dispatch_outcome_witness :
  fst (_allgather_async ex_lib_same_handle ex_tensor ex_output None
         ex_world_pending) = Return 7
  /\ _handle_map
       (snd (_allgather_async ex_lib_same_handle ex_tensor ex_output None
               ex_world_pending))
     = <[7 := Pair (VTensor ex_tensor) (VTensor ex_output)]>
         (_handle_map ex_world_pending).
Proof.
  pose proof (dispatch_outcome ex_lib_same_handle ex_hvd ex_tensor ex_output
                [] [] 0 None Sum 1 1 ex_world_pending)
    as (_ & _ & (_ & H & _) & _).
  specialize (H (AllgatherCall "horovod_torch_allgather_async_torch_FloatTensor"
                   ex_tensor ex_output "") eq_refl).
  simpl in H. destruct H as (H1 & H2 & _). split; assumption.
Defined.

(** ** Dispatch followed by [synchronize] *)

(** Case analysis along a dispatch followed by [synchronize]: the answers
    of the backend at submission and at completion. *)
Ltac py_sync_cases :=
  repeat (simpl;
          match goal with
          | H : ?c = true |- context [if negb ?c then _ else _] => rewrite H
          | H : ?c = false |- context [if negb ?c then _ else _] => rewrite H
          | H : ?c = true |- context [if ?c then _ else _] => rewrite H
          | H : ?c = false |- context [if ?c then _ else _] => rewrite H
          | |- context [<[?k := _]> _ !! ?k] => rewrite lookup_insert_eq
          | |- context [bool_decide (is_Some (Some ?x))] =>
              rewrite (bool_decide_eq_true_2 (is_Some (Some x)))
                by (exists x; reflexivity)
          | |- context [if negb ?c then _ else _] => destruct c eqn:?
          | |- context [if ?c then _ else _] => destruct c eqn:?
          | |- context [invoke ?l ?c ?h ?b] =>
              let r := fresh "r" in
              let b' := fresh "b" in
              destruct (invoke l c h b) as [[r | r] b'] eqn:?
          | |- context [horovod_torch_wait_and_clear ?l ?k ?h ?b] =>
              let m := fresh "m" in
              let h' := fresh "h" in
              let b' := fresh "b" in
              destruct (horovod_torch_wait_and_clear l k h b)
                as [[[m |] h'] b'] eqn:?
          end).

Ltac py_sync_unfold :=
  unfold HorovodAllreduce_forward, HorovodAllgather_forward,
    HorovodBroadcast_forward, HorovodAlltoall_forward, allreduce_async,
    allgather_async, broadcast_async, alltoall_async, allreduce_,
    broadcast_, grouped_allreduce_, allreduce_async_, broadcast_async_,
    grouped_allreduce_async_, tensor_attr, tensor_new_like,
    tensor_new_empty, shape0, int32_tensor, alloc, synchronize,
    handle_map_contains, wait_and_clear, handle_map_pop;
  py_unfold; unfold int32_tensor, alloc, raise.

Ltac py_returned :=
  py_sync_cases; simpl;
  let H := fresh in
  intros H; try discriminate H; inversion H; subst; clear H;
  repeat split; eauto;
  try (eexists; simpl; apply delete_insert_eq).

(** X3: the forward step of allreduce, allgather, broadcast and alltoall
    is not in place.  Whenever it returns, the value is the output tensor
    it allocated: a fresh tensor object with the type and the device of
    the input, never [None] and never the input.  The handle it got from
    the backend is no longer in the handle table, and the saved context
    holds the arguments as they were requested. *)
Theorem forward_returns_fresh_output {B} (mpi_lib : MpiLib B)
    (hvd : HorovodBasics) (tensor : Tensor) (splits : Splits)
    (root_rank : Z) (name : option string) (op : ReduceOp)
    (prescale_factor postscale_factor : Q) (w : World B) :
  let consumed (w' : World B) :=
    exists handle, _handle_map w' = delete handle (_handle_map w) in
  ((tid tensor < next_tid w)%N -> fresh_like w tensor <> tensor)
  /\ (forall ctx v w',
     HorovodAllreduce_forward mpi_lib hvd tensor name op
       prescale_factor postscale_factor w = (Return (ctx, v), w') ->
     v = VTensor (fresh_like w tensor)
     /\ ctx = mkAllreduceCtx op prescale_factor postscale_factor
     /\ consumed w')
  /\ (forall ctx v w',
        HorovodAllgather_forward mpi_lib tensor name w
        = (Return (ctx, v), w') ->
        v = VTensor (fresh_like w tensor)
        /\ ctx_dim ctx = Z.of_nat (length (data_of w tensor))
        /\ consumed w')
  /\ (forall ctx v w',
        HorovodBroadcast_forward mpi_lib tensor root_rank name w
        = (Return (ctx, v), w') ->
        v = VTensor (fresh_like w tensor)
        /\ ctx = mkBroadcastCtx root_rank
        /\ consumed w')
  /\ (forall ctx v w',
        HorovodAlltoall_forward mpi_lib (SplitsTensor tensor) splits name w
        = (Return (ctx, v), w') ->
        v = VTensor (fresh_like w tensor)
        /\ ctx = mkAlltoallCtx (SplitsTensor tensor) splits
        /\ consumed w').
Proof.
  intros consumed. subst consumed. cbv beta. unfold fresh_like.
  split; [| split; [| split; [| split]]].
  - intros Hlt Heq. rewrite <- Heq in Hlt. simpl in Hlt. lia.
  - intros ctx v w'. destruct op; py_sync_unfold; py_returned.
  - intros ctx v w'. py_sync_unfold; py_returned.
  - intros ctx v w'. py_sync_unfold; py_returned.
  - intros ctx v w'. destruct splits; py_sync_unfold; py_returned.
Qed.

Lemma forward_returns_fresh_output_witness :
  HorovodBroadcast_forward ex_lib_same_handle ex_tensor 0 None ex_world_unit
  = (Return (mkBroadcastCtx 0,
             VTensor (mkTensor 2 "torch.FloatTensor" "cpu" true)),
     snd (HorovodBroadcast_forward ex_lib_same_handle ex_tensor 0 None
            ex_world_unit))
  /\ exists handle,
       _handle_map
         (snd (HorovodBroadcast_forward ex_lib_same_handle ex_tensor 0 None
                 ex_world_unit))
       = delete handle (_handle_map ex_world_unit).
Proof.
  assert (E : HorovodBroadcast_forward ex_lib_same_handle ex_tensor 0 None
                ex_world_unit
              = (Return (mkBroadcastCtx 0,
                         VTensor (mkTensor 2 "torch.FloatTensor" "cpu" true)),
                 snd (HorovodBroadcast_forward ex_lib_same_handle ex_tensor
                        0 None ex_world_unit))) by reflexivity.
  split; [exact E |].
  pose proof (forward_returns_fresh_output ex_lib_same_handle ex_hvd
                ex_tensor SplitsNone 0 None Sum 1 1 ex_world_unit)
    as (_ & _ & _ & H & _).
  destruct (H _ _ _ E) as (_ & _ & Hc). exact Hc.
Defined.

(** X4: the in-place variants return the very object they were given.
    Whenever [allreduce_], [broadcast_] or [grouped_allreduce_] returns,
    the value is the input tensor (the tuple of the input tensors for the
    grouped one), no tensor object was created, and the handle is no
    longer in the handle table. *)
Theorem inplace_returns_input {B} (mpi_lib : MpiLib B)
    (hvd : HorovodBasics) (tensor : Tensor) (tensors : list Tensor)
    (root_rank : Z) (name : option string) (op : ReduceOp)
    (prescale_factor postscale_factor : Q) (w : World B) :
  let consumed (w' : World B) :=
    next_tid w' = next_tid w
    /\ exists handle, _handle_map w' = delete handle (_handle_map w) in
  (forall v w',
     allreduce_ mpi_lib hvd tensor name op prescale_factor postscale_factor
       w = (Return v, w') ->
     v = VTensor tensor /\ consumed w')
  /\ (forall v w',
        broadcast_ mpi_lib tensor root_rank name w = (Return v, w') ->
        v = VTensor tensor /\ consumed w')
  /\ (forall v w',
        grouped_allreduce_ mpi_lib hvd tensors name op
          prescale_factor postscale_factor w = (Return v, w') ->
        v = VTuple tensors /\ consumed w').
Proof.
  intros consumed. subst consumed. cbv beta.
  split; [| split].
  - intros v w'. destruct op; py_sync_unfold; py_returned.
  - intros v w'. py_sync_unfold; py_returned.
  - intros v w'. destruct op; destruct tensors; py_sync_unfold; py_returned.
Qed.

Lemma inplace_returns_input_witness :
  fst (allreduce_ ex_lib_same_handle ex_hvd ex_tensor None Sum 1 1
         ex_world_unit)
  = Return (VTensor ex_tensor)
  /\ next_tid
       (snd (allreduce_ ex_lib_same_handle ex_hvd ex_tensor None Sum 1 1
               ex_world_unit))
     = next_tid ex_world_unit.
Proof.
  assert (E : allreduce_ ex_lib_same_handle ex_hvd ex_tensor None Sum 1 1
                ex_world_unit
              = (Return (VTensor ex_tensor),
                 snd (allreduce_ ex_lib_same_handle ex_hvd ex_tensor None
                        Sum 1 1 ex_world_unit))) by reflexivity.
  pose proof (inplace_returns_input ex_lib_same_handle ex_hvd ex_tensor []
                0 None Sum 1 1 ex_world_unit) as (H & _).
  destruct (H _ _ E) as (Hv & Hn & _).
  split; [rewrite E; reflexivity | exact Hn].
Defined.

(** X5: an empty tensor list.  The grouped dispatch indexes [tensors[0]]
    and raises [IndexError] for every op and topology, before any warning
    or backend call; so do [grouped_allreduce_async] and
    [grouped_allreduce_].  [grouped_allreduce] and the backward rule fail
    earlier, with [ValueError], when unpacking the transposed list of
    compressed tensors.  None of them changes the process state. *)
Theorem grouped_empty_list {B} (mpi_lib : MpiLib B) (hvd : HorovodBasics)
    (outputs : list Tensor) (name : option string)
    (compression : Compressor B) (ctx : AllreduceCtx) (op : ReduceOp)
    (prescale_factor postscale_factor : Q) (w : World B) :
  _grouped_allreduce_async mpi_lib hvd [] outputs name op
    prescale_factor postscale_factor w = (Raise IndexError, w)
  /\ grouped_allreduce_async mpi_lib hvd [] name op
       prescale_factor postscale_factor w = (Raise IndexError, w)
  /\ grouped_allreduce_ mpi_lib hvd [] name op
       prescale_factor postscale_factor w = (Raise IndexError, w)
  /\ grouped_allreduce mpi_lib hvd [] name compression op
       prescale_factor postscale_factor w
     = (Raise (ValueError "not enough values to unpack (expected 2, got 0)"),
        w)
  /\ HorovodGroupedAllreduce_backward mpi_lib hvd ctx [] w
     = (Raise (ValueError "not enough values to unpack (expected 2, got 0)"),
        w).
Proof.
  assert (H0 : forall outs,
             _grouped_allreduce_async mpi_lib hvd [] outs name op
               prescale_factor postscale_factor w = (Raise IndexError, w)).
  { intros outs. destruct op; py_unfold; simpl;
      destruct (rocm_built hvd); reflexivity. }
  split; [apply H0 | split; [| split; [| split]]].
  - unfold grouped_allreduce_async. simpl. unfold bind at 1. simpl.
    apply H0.
  - unfold grouped_allreduce_, grouped_allreduce_async_, bind.
    rewrite H0. reflexivity.
  - reflexivity.
  - reflexivity.
Qed.

(** ** Grouped allreduce *)

Lemma new_like_each_spec {B} (tensors : list Tensor) (w : World B) :
  exists outputs w',
    new_like_each tensors w = (Return outputs, w')
    /\ map tid outputs
       = map (fun i => (next_tid w + N.of_nat i)%N) (seq 0 (length tensors))
    /\ map type outputs = map type tensors
    /\ map device_type outputs = map device_type tensors
    /\ next_tid w' = (next_tid w + N.of_nat (length tensors))%N
    /\ _handle_map w' = _handle_map w
    /\ engine w' = engine w
    /\ warnings w' = warnings w
    /\ submitted w' = submitted w
    /\ (forall t0, (tid t0 < next_tid w)%N -> data_of w' t0 = data_of w t0).
Proof.
  revert w. induction tensors as [| t ts IH]; intros w.
  - exists [], w. simpl. unfold ret. repeat split; try reflexivity. lia.
  - simpl. unfold bind at 1. unfold tensor_new_like, alloc.
    set (w1 := mkWorld (_handle_map w) _ (N.succ (next_tid w)) (engine w)
                 (warnings w) (submitted w)).
    destruct (IH w1)
      as (os & w' & E & Htid & Hty & Hdev & Hn & Hm & He & Hw & Hs & Hk).
    unfold bind at 1. rewrite E. unfold ret.
    eexists. eexists. split; [reflexivity |].
    simpl. rewrite Htid, Hty, Hdev, Hn, Hm, He, Hw, Hs. subst w1. simpl.
    repeat split; try reflexivity.
    + f_equal; [f_equal; lia |].
      rewrite <- seq_shift, map_map. apply map_ext. intros i. lia.
    + lia.
    + intros t0 Ht0. rewrite Hk by (simpl; lia).
      unfold data_of. simpl. rewrite lookup_insert_ne by lia. reflexivity.
Qed.

(** X6: [grouped_allreduce_async] allocates one output per input tensor,
    in order, with the type and device of its input.  The outputs are new
    tensor objects, numbered consecutively, so they are pairwise distinct
    and none of them is an input.  For an op other than [Adasum] and a
    valid first tensor, the lists of inputs and of outputs reach the
    backend in one call. *)
Theorem grouped_async_outputs {B} (mpi_lib : MpiLib B)
    (hvd : HorovodBasics) (tensor : Tensor) (rest : list Tensor)
    (name : option string) (op : ReduceOp)
    (prescale_factor postscale_factor : Q) (w : World B) :
  hasattr mpi_lib (_grouped_allreduce_function_factory tensor) = true ->
  is_contiguous tensor = true ->
  op <> Adasum ->
  let r := grouped_allreduce_async mpi_lib hvd (tensor :: rest) name op
             prescale_factor postscale_factor w in
  exists outputs op' divisor,
    submitted (snd r)
    = submitted w ++
        [GroupedAllreduceCall (_grouped_allreduce_function_factory tensor)
           (tensor :: rest) outputs divisor (encode_name name) op'
           prescale_factor postscale_factor]
    /\ length outputs = length (tensor :: rest)
    /\ map type outputs = map type (tensor :: rest)
    /\ map device_type outputs = map device_type (tensor :: rest)
    /\ NoDup (map tid outputs)
    /\ Forall (fun o => (next_tid w <= tid o)%N) outputs.
Proof.
  intros Hs Hc Hop r.
  destruct (new_like_each_spec (tensor :: rest) w)
    as (os & w' & E & Htid & Hty & Hdev & Hn & Hm & He & Hw & Hsub & Hk).
  assert (Hlen : length os = length (tensor :: rest)).
  { apply (f_equal length) in Hty. rewrite !length_map in Hty. exact Hty. }
  assert (Hrun : exists op' divisor,
             submitted (snd r)
             = submitted w' ++
                 [GroupedAllreduceCall
                    (_grouped_allreduce_function_factory tensor)
                    (tensor :: rest) os divisor (encode_name name) op'
                    prescale_factor postscale_factor]).
  { subst r. unfold grouped_allreduce_async.
    rewrite (bind_return _ _ _ _ _ E).
    destruct op; [| | congruence]; py_unfold; py_finish. }
  destruct Hrun as (op' & divisor & Hrun).
  exists os, op', divisor. rewrite Hrun, Hsub.
  split; [reflexivity | split; [exact Hlen | split; [exact Hty |]]].
  split; [exact Hdev | split].
  - rewrite Htid. apply NoDup_fmap_2.
    + intros i j Hij. lia.
    + apply NoDup_seq.
  - apply Forall_forall. intros o Ho.
    assert (Hin : tid o ∈ map tid os) by (apply list_elem_of_fmap; eauto).
    rewrite Htid in Hin. apply list_elem_of_fmap in Hin as (i & -> & _). lia.
Qed.

Lemma grouped_async_outputs_witness :
  exists outputs op' divisor,
    submitted
      (snd (grouped_allreduce_async ex_lib ex_hvd [ex_tensor; ex_strided]
              None Average 1 1 ex_world))
    = [GroupedAllreduceCall
         "horovod_torch_grouped_allreduce_async_torch_FloatTensor"
         [ex_tensor; ex_strided] outputs divisor "" op' 1 1]
    /\ length outputs = 2%nat
    /\ NoDup (map tid outputs).
Proof.
  assert (Hop : Average <> Adasum) by discriminate.
  destruct (grouped_async_outputs ex_lib ex_hvd ex_tensor [ex_strided] None
              Average 1 1 ex_world eq_refl eq_refl Hop)
    as (os & op' & d & Hs & Hl & _ & _ & Hnd & _).
  exists os, op', d. split; [exact Hs | split; [exact Hl | exact Hnd]].
Defined.

(** ** Collectives on the cluster *)

Lemma length_concat_Z {A} (l : list (list A)) :
  Z.of_nat (length (concat l)) = foldr Z.add 0 (map Z.of_nat (map length l)).
Proof.
  induction l as [| x l IH]; simpl; [reflexivity |].
  rewrite length_app. lia.
Qed.

Lemma allgather_forward_on_cluster (c : Cluster) (t : Tensor)
    (w : World ClusterEngine) :
  built c (_allgather_function_factory t) = true ->
  is_contiguous t = true ->
  (tid t < next_tid w)%N ->
  exists w',
    HorovodAllgather_forward (cluster_mpi_lib c) t None w
    = (Return (mkAllgatherCtx (Z.of_nat (length (data_of w t))),
               VTensor (fresh_like w t)), w')
    /\ creates w w' (fresh_like w t)
         (concat (contributions c (issued (engine w)) (data_of w t)))
    /\ _handle_map w' = delete (next_handle (engine w)) (_handle_map w).
Proof.
  intros Hb Hc Hfresh. eexists. split.
  - unfold HorovodAllgather_forward, allgather_async, shape0,
      tensor_new_empty, alloc, synchronize, handle_map_contains,
      wait_and_clear, handle_map_pop, fresh_like.
    py_unfold. simpl. rewrite Hb, Hc. simpl.
    rewrite lookup_insert_eq.
    rewrite bool_decide_eq_true_2 by eauto. simpl.
    unfold cluster_wait_and_clear. map_simpl.
    fold (data_of w t). reflexivity.
  - unfold creates, data_of, fresh_like. simpl. repeat split.
    + rewrite lookup_insert_eq. reflexivity.
    + intros t0 Ht0. rewrite lookup_insert_ne by lia. reflexivity.
Qed.

(** X7: the forward step of allgather on the cluster.  The result is a
    new tensor holding the ranks' tensors one after the other in rank
    order, so its first dimension is the sum of theirs; the context keeps
    this rank's own row count; the input is not modified; and the rows of
    the result from this rank's offset on, as many as the context says,
    are the input again. *)
Theorem allgather_forward_roundtrip (c : Cluster) (t : Tensor)
    (w : World ClusterEngine) :
  built c (_allgather_function_factory t) = true ->
  is_contiguous t = true ->
  (tid t < next_tid w)%N ->
  (me c < length (peers c (issued (engine w))))%nat ->
  let gathered := contributions c (issued (engine w)) (data_of w t) in
  exists ctx out w',
    HorovodAllgather_forward (cluster_mpi_lib c) t None w
    = (Return (ctx, VTensor out), w')
    /\ data_of w' out = concat gathered
    /\ Z.of_nat (length (data_of w' out))
       = foldr Z.add 0 (map Z.of_nat (map length gathered))
    /\ ctx_dim ctx = Z.of_nat (length (data_of w t))
    /\ data_of w' t = data_of w t
    /\ take (Z.to_nat (ctx_dim ctx))
         (drop (Z.to_nat (offset_of (map length gathered) (me c)))
            (data_of w' out))
       = data_of w t.
Proof.
  intros Hb Hc Hfresh Hme gathered.
  destruct (allgather_forward_on_cluster c t w Hb Hc Hfresh)
    as (w' & E & (Ht & Hn & Hd & Hk) & _).
  fold gathered in Hd.
  exists (mkAllgatherCtx (Z.of_nat (length (data_of w t)))),
    (fresh_like w t), w'.
  split; [exact E | split; [exact Hd |]].
  split; [rewrite Hd; apply length_concat_Z |].
  split; [reflexivity | split; [apply Hk; exact Hfresh |]].
  rewrite Hd. simpl. rewrite Nat2Z.id.
  apply narrow_concat_block. subst gathered. unfold contributions.
  apply list_lookup_insert_eq. exact Hme.
Qed.

Lemma allgather_forward_roundtrip_witness :
  exists ctx out w',
    HorovodAllgather_forward ex_lib ex_tensor None ex_world
    = (Return (ctx, VTensor out), w')
    /\ length (data_of w' out) = 40%nat
    /\ ctx_dim ctx = 10
    /\ take 10 (drop 20 (data_of w' out)) = data_of ex_world ex_tensor.
Proof.
  assert (Hlt : (tid ex_tensor < next_tid ex_world)%N) by reflexivity.
  assert (Hme : (me ex_cluster
                 < length (peers ex_cluster (issued (engine ex_world))))%nat)
    by (simpl; lia).
  destruct (allgather_forward_roundtrip ex_cluster ex_tensor ex_world
              eq_refl eq_refl Hlt Hme)
    as (ctx & out & w' & E & Hd & Hl & Hdim & _ & Hrt).
  exists ctx, out, w'. split; [exact E |].
  split; [apply Nat2Z.inj; rewrite Hl; reflexivity |].
  split; [exact Hdim |].
  rewrite Hdim in Hrt. exact Hrt.
Defined.

(** X8: [allreduce] with [Sum] on the cluster is not in place.  It returns
    a new tensor with the type, device and shape of the input, holding the
    elementwise sum of the ranks' tensors, and the input keeps its
    elements. *)
Theorem allreduce_sum_result (c : Cluster) (hvd : HorovodBasics)
    (tensor : Tensor) (w : World ClusterEngine) :
  built c (_allreduce_function_factory tensor) = true ->
  is_contiguous tensor = true ->
  (tid tensor < next_tid w)%N ->
  (me c < length (peers c (issued (engine w))))%nat ->
  let tensors :=
    contributions c (issued (engine w)) (data_of w tensor) in
  all_same_shape tensors = true ->
  exists out w',
    allreduce (cluster_mpi_lib c) hvd tensor None Compression_none Sum 1 1 w
    = (Return (VTensor out), w')
    /\ data_of w' out = reduce_sum tensors
    /\ shape (data_of w' out) = shape (data_of w tensor)
    /\ type out = type tensor
    /\ device_type out = device_type tensor
    /\ out <> tensor
    /\ data_of w' tensor = data_of w tensor.
Proof.
  intros Hb Hc Hfresh Hme tensors Hshape.
  destruct (allreduce_sum_creates c hvd tensor w Hb Hc Hfresh Hshape)
    as (out & w' & E & (Ht & Hn & Hd & Hk) & Hty & Hdev & _).
  fold tensors in Hd.
  exists out, w'. split; [exact E | split; [exact Hd |]].
  split.
  { rewrite Hd. apply shape_reduce_sum; [exact Hshape |].
    apply own_in_contributions. exact Hme. }
  split; [exact Hty | split; [exact Hdev | split]].
  - intros Heq. rewrite Heq in Ht. lia.
  - apply Hk. exact Hfresh.
Qed.

Lemma allreduce_sum_result_witness :
  exists out w',
    allreduce ex_lib ex_hvd ex_tensor None Compression_none Sum 1 1 ex_world
    = (Return (VTensor out), w')
    /\ data_of w' out = map (fun i => [Num (1011 + Z.of_nat i); Num 1021]) (seq 0 10)
    /\ data_of w' ex_tensor = data_of ex_world ex_tensor.
Proof.
  assert (Hlt : (tid ex_tensor < next_tid ex_world)%N) by reflexivity.
  assert (Hme : (me ex_cluster
                 < length (peers ex_cluster (issued (engine ex_world))))%nat)
    by (simpl; lia).
  destruct (allreduce_sum_result ex_cluster ex_hvd ex_tensor ex_world
              eq_refl eq_refl Hlt Hme eq_refl)
    as (out & w' & E & Hd & _ & _ & _ & _ & Hin).
  exists out, w'. split; [exact E | split; [exact Hd | exact Hin]].
Defined.

(** X9: [allreduce_] with [Sum] on the cluster works in place.  It returns
    the input tensor, which now holds the elementwise sum of the ranks'
    tensors; no tensor object is created and every other tensor keeps its
    elements. *)
Theorem allreduce_inplace_on_cluster (c : Cluster) (hvd : HorovodBasics)
    (tensor : Tensor) (w : World ClusterEngine) :
  built c (_allreduce_function_factory tensor) = true ->
  is_contiguous tensor = true ->
  let tensors :=
    contributions c (issued (engine w)) (data_of w tensor) in
  all_same_shape tensors = true ->
  exists w',
    allreduce_ (cluster_mpi_lib c) hvd tensor None Sum 1 1 w
    = (Return (VTensor tensor), w')
    /\ data_of w' tensor = reduce_sum tensors
    /\ next_tid w' = next_tid w
    /\ (forall t0, tid t0 <> tid tensor -> data_of w' t0 = data_of w t0)
    /\ _handle_map w' = delete (next_handle (engine w)) (_handle_map w).
Proof.
  intros Hb Hc tensors Hshape. eexists. split.
  - unfold allreduce_, allreduce_async_, synchronize, handle_map_contains,
      wait_and_clear, handle_map_pop.
    py_unfold. simpl. rewrite Hb, Hc. simpl.
    rewrite lookup_insert_eq.
    rewrite bool_decide_eq_true_2 by eauto. simpl.
    unfold cluster_wait_and_clear. map_simpl.
    fold (data_of w tensor). fold tensors. rewrite Hshape. map_simpl.
    reflexivity.
  - unfold data_of. simpl. repeat split.
    + rewrite lookup_insert_eq. reflexivity.
    + intros t0 Ht0. rewrite lookup_insert_ne by congruence. reflexivity.
Qed.

Lemma allreduce_inplace_on_cluster_witness :
  exists w',
    allreduce_ ex_lib ex_hvd ex_tensor None Sum 1 1 ex_world
    = (Return (VTensor ex_tensor), w')
    /\ data_of w' ex_tensor
       = map (fun i => [Num (1011 + Z.of_nat i); Num 1021]) (seq 0 10)
    /\ next_tid w' = 2%N.
Proof.
  destruct (allreduce_inplace_on_cluster ex_cluster ex_hvd ex_tensor
              ex_world eq_refl eq_refl eq_refl)
    as (w' & E & Hd & Hn & _).
  exists w'. split; [exact E | split; [exact Hd | exact Hn]].
Defined.

(** X10: broadcast on the cluster, for a root rank that exists.
    [broadcast] returns a new tensor holding the root's tensor and leaves
    the input as it was; [broadcast_] overwrites the input with the root's
    tensor and returns it.  On the root rank the tensor received is the
    rank's own, so even the in-place variant leaves it as it was. *)
Theorem broadcast_on_cluster (c : Cluster) (tensor : Tensor)
    (root_rank : Z) (d : list (list Elem)) (w : World ClusterEngine) :
  built c (_broadcast_function_factory tensor) = true ->
  is_contiguous tensor = true ->
  (tid tensor < next_tid w)%N ->
  0 <= root_rank ->
  (contributions c (issued (engine w)) (data_of w tensor))
    !! (Z.to_nat root_rank) = Some d ->
  (exists out w',
     broadcast (cluster_mpi_lib c) tensor root_rank None w
     = (Return (VTensor out), w')
     /\ data_of w' out = d
     /\ out <> tensor
     /\ data_of w' tensor = data_of w tensor)
  /\ (exists w',
        broadcast_ (cluster_mpi_lib c) tensor root_rank None w
        = (Return (VTensor tensor), w')
        /\ data_of w' tensor = d
        /\ next_tid w' = next_tid w)
  /\ (root_rank = Z.of_nat (me c) -> d = data_of w tensor).
Proof.
  intros Hb Hc Hfresh Hroot Hd.
  assert (Hneg : (root_rank <? 0) = false) by (apply Z.ltb_ge; exact Hroot).
  split; [| split].
  - exists (fresh_like w tensor). eexists. split.
    + unfold broadcast, HorovodBroadcast_forward, broadcast_async,
        tensor_new_like, alloc, synchronize, handle_map_contains,
        wait_and_clear, handle_map_pop, fresh_like.
      py_unfold. simpl. rewrite Hb, Hc. simpl.
      rewrite lookup_insert_eq.
      rewrite bool_decide_eq_true_2 by eauto. simpl.
      unfold cluster_wait_and_clear. map_simpl.
      fold (data_of w tensor). rewrite Hneg, Hd. map_simpl. reflexivity.
    + unfold data_of, fresh_like. simpl. repeat split.
      * rewrite lookup_insert_eq. reflexivity.
      * intros Heq. rewrite <- Heq in Hfresh. simpl in Hfresh. lia.
      * rewrite lookup_insert_ne by lia. reflexivity.
  - eexists. split.
    + unfold broadcast_, broadcast_async_, synchronize, handle_map_contains,
        wait_and_clear, handle_map_pop.
      py_unfold. simpl. rewrite Hb, Hc. simpl.
      rewrite lookup_insert_eq.
      rewrite bool_decide_eq_true_2 by eauto. simpl.
      unfold cluster_wait_and_clear. map_simpl.
      fold (data_of w tensor). rewrite Hneg, Hd. map_simpl. reflexivity.
    + unfold data_of. simpl. split; [| reflexivity].
      rewrite lookup_insert_eq. reflexivity.
  - intros ->. rewrite Nat2Z.id in Hd. unfold contributions in Hd.
    pose proof (lookup_lt_Some _ _ _ Hd) as Hlt.
    rewrite length_insert in Hlt.
    rewrite list_lookup_insert_eq in Hd by exact Hlt. congruence.
Qed.

Lemma broadcast_on_cluster_witness :
  (exists out w',
     broadcast ex_lib ex_tensor 1 None ex_world = (Return (VTensor out), w')
     /\ data_of w' out = ex_grad 10
     /\ data_of w' ex_tensor = data_of ex_world ex_tensor)
  /\ exists w',
       broadcast_ ex_lib ex_tensor 1 None ex_world
       = (Return (VTensor ex_tensor), w')
       /\ data_of w' ex_tensor = ex_grad 10.
Proof.
  assert (Hlt : (tid ex_tensor < next_tid ex_world)%N) by reflexivity.
  assert (H0 : 0 <= 1) by lia.
  destruct (broadcast_on_cluster ex_cluster ex_tensor 1 (ex_grad 10)
              ex_world eq_refl eq_refl Hlt H0 eq_refl)
    as ((out & w1 & E1 & Hd1 & _ & Hin) & (w2 & E2 & Hd2 & _) & _).
  split.
  - exists out, w1. split; [exact E1 | split; [exact Hd1 | exact Hin]].
  - exists w2. split; [exact E2 | exact Hd2].
Defined.

(** ** Backward rules over any backend *)

(** X11: the backward rule of allreduce reduces the gradient with the op
    the forward call was asked for, not with [Sum]: after a forward call
    with [Average] or [Sum], the backward call hands the gradient to the
    backend with the op and divisor the policy gives for that op, the
    scale factors of the forward call, and no name. *)
Theorem allreduce_backward_same_op {B} (mpi_lib : MpiLib B)
    (hvd : HorovodBasics) (tensor : Tensor) (name : option string)
    (op : ReduceOp) (prescale_factor postscale_factor : Q)
    (w w1 w2 : World B) (ctx : AllreduceCtx) (v : Value)
    (grad_output : Tensor) :
  HorovodAllreduce_forward mpi_lib hvd tensor name op
    prescale_factor postscale_factor w = (Return (ctx, v), w1) ->
  op <> Adasum ->
  hasattr mpi_lib (_allreduce_function_factory grad_output) = true ->
  is_contiguous grad_output = true ->
  submitted (snd (HorovodAllreduce_backward mpi_lib hvd ctx grad_output w2))
  = submitted w2 ++
      [AllreduceCall (_allreduce_function_factory grad_output) grad_output
         (fresh_like w2 grad_output)
         (if decide (op = Average) then
            if rocm_built hvd then size hvd else 1
          else 1)
         ""
         (if decide (op = Average) then
            if rocm_built hvd then Sum else Average
          else op)
         prescale_factor postscale_factor].
Proof.
  intros Hfwd Hop Hs Hc.
  assert (Hctx : ctx = mkAllreduceCtx op prescale_factor postscale_factor).
  { revert Hfwd. destruct op; py_sync_unfold; py_sync_cases; simpl;
      intros H; try discriminate H; inversion H; reflexivity. }
  subst ctx. unfold HorovodAllreduce_backward, allreduce, Compression_none,
    fresh_like.
  destruct op; [| | congruence]; simpl; py_sync_unfold; py_sync_cases;
    reflexivity.
Qed.

Lemma allreduce_backward_same_op_witness :
  submitted
    (snd (HorovodAllreduce_backward ex_lib_same_handle ex_hvd_rocm
            (mkAllreduceCtx Average 1 1) ex_tensor ex_world_unit))
  = [AllreduceCall "horovod_torch_allreduce_async_torch_FloatTensor"
       ex_tensor (mkTensor 2 "torch.FloatTensor" "cpu" true) 4 "" Sum 1 1].
Proof.
  assert (Hop : Average <> Adasum) by discriminate.
  assert (E : HorovodAllreduce_forward ex_lib_same_handle ex_hvd_rocm
                ex_tensor None Average 1 1 ex_world_unit
              = (Return (mkAllreduceCtx Average 1 1,
                         VTensor (mkTensor 2 "torch.FloatTensor" "cpu" true)),
                 snd (HorovodAllreduce_forward ex_lib_same_handle
                        ex_hvd_rocm ex_tensor None Average 1 1
                        ex_world_unit))) by reflexivity.
  exact (allreduce_backward_same_op ex_lib_same_handle ex_hvd_rocm ex_tensor
           None Average 1 1 ex_world_unit _ ex_world_unit _ _ ex_tensor
           E Hop eq_refl eq_refl).
Defined.

Ltac py_alltoall_unfold :=
  unfold HorovodAlltoall_backward, alltoall, splits_of_value, ones_int32,
    mul_int32, floordiv;
  py_sync_unfold.

(** X12: split sizes given to alltoall as a plain sequence work in the
    forward step, which converts them for the backend but saves them as
    they came; the backward rule then passes the saved sequence to
    [alltoall] as the tensor to exchange, and fails with [AttributeError]
    before any backend call, the handle table unchanged. *)
Theorem alltoall_backward_sequence_splits {B} (mpi_lib : MpiLib B)
    (hvd : HorovodBasics) (tensor : Tensor) (l : list Z)
    (name : option string) (w w1 w2 : World B) (ctx : AlltoallCtx)
    (v : Value) (grad_output : Tensor) :
  HorovodAlltoall_forward mpi_lib (SplitsTensor tensor) (SplitsSeq l) name w
  = (Return (ctx, v), w1) ->
  0 <= size hvd ->
  let r := HorovodAlltoall_backward mpi_lib hvd ctx grad_output w2 in
  fst r = Raise AttributeError
  /\ submitted (snd r) = submitted w2
  /\ _handle_map (snd r) = _handle_map w2.
Proof.
  intros Hfwd Hsize r.
  assert (Hctx : ctx = mkAlltoallCtx (SplitsTensor tensor) (SplitsSeq l)).
  { revert Hfwd. py_sync_unfold; py_sync_cases; simpl;
      intros H; try discriminate H; inversion H; reflexivity. }
  assert (Hneg : (size hvd <? 0) = false) by (apply Z.ltb_ge; exact Hsize).
  subst r ctx. py_alltoall_unfold. simpl. rewrite Hneg. simpl.
  repeat split.
Qed.

Lemma alltoall_backward_sequence_splits_witness :
  fst (HorovodAlltoall_forward ex_lib_same_handle (SplitsTensor ex_tensor)
         (SplitsSeq [1; 1; 1; 1]) None ex_world_unit)
  = Return (mkAlltoallCtx (SplitsTensor ex_tensor) (SplitsSeq [1; 1; 1; 1]),
            VTensor (mkTensor 2 "torch.FloatTensor" "cpu" true))
  /\ fst (HorovodAlltoall_backward ex_lib_same_handle ex_hvd
            (mkAlltoallCtx (SplitsTensor ex_tensor) (SplitsSeq [1; 1; 1; 1]))
            ex_tensor ex_world_unit)
     = Raise AttributeError.
Proof.
  assert (E : HorovodAlltoall_forward ex_lib_same_handle
                (SplitsTensor ex_tensor) (SplitsSeq [1; 1; 1; 1]) None
                ex_world_unit
              = (Return (mkAlltoallCtx (SplitsTensor ex_tensor)
                           (SplitsSeq [1; 1; 1; 1]),
                         VTensor (mkTensor 2 "torch.FloatTensor" "cpu" true)),
                 snd (HorovodAlltoall_forward ex_lib_same_handle
                        (SplitsTensor ex_tensor) (SplitsSeq [1; 1; 1; 1])
                        None ex_world_unit))) by reflexivity.
  assert (H4 : 0 <= size ex_hvd) by (simpl; lia).
  split; [rewrite E; reflexivity |].
  exact (proj1 (alltoall_backward_sequence_splits ex_lib_same_handle ex_hvd
                  ex_tensor [1; 1; 1; 1] None ex_world_unit _ ex_world_unit
                  _ _ ex_tensor E H4)).
Defined.

(** X13: the backward rule of alltoall with split sizes given as a tensor
    makes two exchanges.  Whenever it returns, it has submitted exactly
    two alltoall calls: the first sends the saved split sizes with a fresh
    unit split vector, the second sends the gradient with the tensor
    received in the first exchange as its split sizes; the value returned
    is the output tensor of the second exchange. *)
Theorem alltoall_backward_exchanges {B} (mpi_lib : MpiLib B)
    (hvd : HorovodBasics) (ctx : AlltoallCtx) (sent : Tensor)
    (grad_output : Tensor) (w w' : World B) (v : Value) :
  ctx_splits ctx = SplitsTensor sent ->
  HorovodAlltoall_backward mpi_lib hvd ctx grad_output w = (Return v, w') ->
  let unit_splits := mkTensor (next_tid w) "torch.IntTensor" "cpu" true in
  let received :=
    mkTensor (N.succ (next_tid w)) (type sent) (device_type sent) true in
  let output :=
    mkTensor (N.succ (N.succ (next_tid w))) (type grad_output)
      (device_type grad_output) true in
  v = VTensor output
  /\ submitted w'
     = submitted w ++
         [AlltoallCall (_alltoall_function_factory sent) sent unit_splits
            received "";
          AlltoallCall (_alltoall_function_factory grad_output) grad_output
            received output ""]
  /\ next_tid w' = N.succ (N.succ (N.succ (next_tid w))).
Proof.
  intros Hsplits Hrun unit_splits received output.
  subst unit_splits received output. revert Hrun.
  py_alltoall_unfold. rewrite Hsplits. py_sync_cases. simpl.
  all: intros H; try discriminate H; inversion H; subst; clear H.
  all: rewrite <- ?app_assoc; repeat split.
Qed.

Lemma alltoall_backward_exchanges_witness :
  submitted
    (snd (HorovodAlltoall_backward ex_lib_same_handle ex_hvd
            (mkAlltoallCtx (SplitsTensor ex_tensor)
               (SplitsTensor ex_output))
            ex_tensor ex_world_unit))
  = [AlltoallCall "horovod_torch_alltoall_async_torch_FloatTensor" ex_output
       (mkTensor 2 "torch.IntTensor" "cpu" true)
       (mkTensor 3 "torch.FloatTensor" "cpu" true) "";
     AlltoallCall "horovod_torch_alltoall_async_torch_FloatTensor" ex_tensor
       (mkTensor 3 "torch.FloatTensor" "cpu" true)
       (mkTensor 4 "torch.FloatTensor" "cpu" true) ""].
Proof.
  assert (E : HorovodAlltoall_backward ex_lib_same_handle ex_hvd
                (mkAlltoallCtx (SplitsTensor ex_tensor)
                   (SplitsTensor ex_output))
                ex_tensor ex_world_unit
              = (Return (VTensor (mkTensor 4 "torch.FloatTensor" "cpu" true)),
                 snd (HorovodAlltoall_backward ex_lib_same_handle ex_hvd
                        (mkAlltoallCtx (SplitsTensor ex_tensor)
                           (SplitsTensor ex_output))
                        ex_tensor ex_world_unit))) by reflexivity.
  exact (proj1 (proj2 (alltoall_backward_exchanges ex_lib_same_handle ex_hvd
                         (mkAlltoallCtx (SplitsTensor ex_tensor)
                            (SplitsTensor ex_output))
                         ex_output ex_tensor ex_world_unit _ _
                         eq_refl E))).
Defined.

(** ** Grouped allreduce with compression *)

Lemma compress_each_none {B} (tensors : list Tensor) (w : World B) :
  compress_each Compression_none tensors w
  = (Return (map (fun t => (t, tt)) tensors), w).
Proof.
  induction tensors as [| t ts IH]; simpl; [reflexivity |].
  unfold bind, ret in *. simpl. rewrite IH. reflexivity.
Qed.

Lemma decompress_each_none {B} (outputs : list Tensor) (ctxs : list unit)
    (w : World B) :
  length ctxs = length outputs ->
  decompress_each Compression_none (zip outputs ctxs) w
  = (Return (map VTensor outputs), w).
Proof.
  revert ctxs. induction outputs as [| o os IH]; intros [| c cs] H;
    simpl in *; try discriminate; [reflexivity |].
  unfold bind, ret in *. simpl. rewrite IH by lia. reflexivity.
Qed.

Lemma grouped_dispatch_then_synchronize {B} (mpi_lib : MpiLib B)
    (hvd : HorovodBasics) (tensors outputs : list Tensor)
    (name : option string) (op : ReduceOp)
    (prescale_factor postscale_factor : Q) (w w' : World B) (v : Value) :
  bind (_grouped_allreduce_async mpi_lib hvd tensors outputs name op
          prescale_factor postscale_factor)
    (synchronize mpi_lib) w = (Return v, w') ->
  v = VTuple outputs.
Proof.
  destruct op; destruct tensors;
    unfold synchronize, handle_map_contains, wait_and_clear,
      handle_map_pop; py_unfold; py_sync_cases; simpl;
    intros H; try discriminate H; inversion H; reflexivity.
Qed.

(** X14: [grouped_allreduce] with the default compression returns one
    tensor per input tensor, in the order of the inputs: whenever it
    returns, the values are the freshly allocated output tensors, each
    with the type and device of its input, none of them an input. *)
Theorem grouped_allreduce_returns_outputs {B} (mpi_lib : MpiLib B)
    (hvd : HorovodBasics) (tensors : list Tensor) (name : option string)
    (op : ReduceOp) (prescale_factor postscale_factor : Q)
    (w w' : World B) (vs : list Value) :
  grouped_allreduce mpi_lib hvd tensors name Compression_none op
    prescale_factor postscale_factor w = (Return vs, w') ->
  exists outputs,
    vs = map VTensor outputs
    /\ length outputs = length tensors
    /\ map type outputs = map type tensors
    /\ map device_type outputs = map device_type tensors
    /\ NoDup (map tid outputs)
    /\ Forall (fun o => (next_tid w <= tid o)%N) outputs.
Proof.
  unfold grouped_allreduce. unfold bind at 1.
  rewrite compress_each_none.
  destruct tensors as [| t ts]; [discriminate |].
  set (tensors := t :: ts).
  change (map (fun t0 => (t0, ())) tensors)
    with ((t, ()) :: map (fun t0 => (t0, ())) ts).
  unfold bind at 1. cbv beta iota. unfold ret at 1.
  change ((t, ()) :: map (fun t0 => (t0, ())) ts)
    with (map (fun t0 : Tensor => (t0, ())) tensors).
  rewrite !map_map. simpl fst. simpl snd. rewrite map_id.
  unfold HorovodGroupedAllreduce_forward, grouped_allreduce_async.
  destruct (new_like_each_spec tensors w)
    as (os & w1 & E & Htid & Hty & Hdev & Hn & Hm & He & Hw & Hsub & Hk).
  assert (Hlen : length os = length tensors).
  { apply (f_equal length) in Hty. rewrite !length_map in Hty. exact Hty. }
  unfold bind, ret. rewrite E.
  destruct (_grouped_allreduce_async mpi_lib hvd tensors os name op
              prescale_factor postscale_factor w1) as [[h | e] w2] eqn:Hd;
    [| discriminate].
  destruct (synchronize mpi_lib h w2) as [[v | e] w3] eqn:Hsync;
    [| discriminate].
  assert (Hv : v = VTuple os).
  { apply (grouped_dispatch_then_synchronize mpi_lib hvd tensors os name op
             prescale_factor postscale_factor w1 w3).
    unfold bind. rewrite Hd. exact Hsync. }
  subst v.
  rewrite decompress_each_none by (rewrite length_map; lia).
  intros H. inversion H; subst. exists os.
  split; [reflexivity | split; [exact Hlen | split; [exact Hty |]]].
  split; [exact Hdev | split].
  - rewrite Htid. apply NoDup_fmap_2.
    + intros i j Hij. lia.
    + apply NoDup_seq.
  - apply Forall_forall. intros o Ho.
    assert (Hin : tid o ∈ map tid os) by (apply list_elem_of_fmap; eauto).
    rewrite Htid in Hin.
    apply list_elem_of_fmap in Hin as (i & -> & _). lia.
Qed.

Lemma grouped_allreduce_returns_outputs_witness :
  exists outputs,
    [VTensor (mkTensor 2 "torch.FloatTensor" "cpu" true);
     VTensor (mkTensor 3 "torch.FloatTensor" "cpu" true)]
    = map VTensor outputs
    /\ length outputs = 2%nat
    /\ NoDup (map tid outputs).
Proof.
  assert (E : grouped_allreduce ex_lib_same_handle ex_hvd
                [ex_tensor; ex_strided] None Compression_none Sum 1 1
                ex_world_unit
              = (Return [VTensor (mkTensor 2 "torch.FloatTensor" "cpu" true);
                         VTensor (mkTensor 3 "torch.FloatTensor" "cpu" true)],
                 snd (grouped_allreduce ex_lib_same_handle ex_hvd
                        [ex_tensor; ex_strided] None Compression_none Sum
                        1 1 ex_world_unit))) by reflexivity.
  destruct (grouped_allreduce_returns_outputs ex_lib_same_handle ex_hvd
              [ex_tensor; ex_strided] None Sum 1 1 ex_world_unit _ _ E)
    as (os & Hvs & Hl & _ & _ & Hnd & _).
  exists os. split; [exact Hvs | split; [exact Hl | exact Hnd]].
Defined.
